(** * Event-driven idempotent data pipeline: a shallow embedding

    The development follows the two Python modules of the repository:
    [storage.py] (the S3 adapter: [download_file], [upload_file],
    [file_exists]) and [lambda_handler.py] ([extract_s3_event],
    [load_into_dataframe], [lambda_handler]).

    Python values that the handler receives (the trigger event) are a small
    JSON-like datatype with Python's subscripting rules; exceptions are an
    inductive type; effectful code lives in a state-and-exception monad over
    a [world] holding the S3 objects, the request trace, the log and the
    clock. *)

From stdpp Require Import gmap strings list.
From Stdlib Require Import ZArith.

Open Scope string_scope.
Open Scope list_scope.

(** ** Python exceptions and results *)

Inductive exn :=
| KeyError (k : string)
| IndexError
| TypeError
| ValueError (msg : string)        (* ValueError or one of its subclasses *)
| ClientError (code : string)      (* botocore.exceptions.ClientError *)
| BotoCoreError (msg : string)     (* any botocore error that is not a ClientError *)
| PandasError (msg : string).      (* pandas.errors.* raised by read_csv *)

Inductive result (A : Type) :=
| Ok (a : A)
| Raise (e : exn).
Arguments Ok {A} a.
Arguments Raise {A} e.

Global Instance result_ret : MRet result := λ A a, Ok a.
Global Instance result_bind : MBind result := λ A B f r,
  match r with
  | Ok a => f a
  | Raise e => Raise e
  end.

Definition is_ClientError (e : exn) : bool :=
  match e with ClientError _ => true | _ => false end.


(** ** Python values of the trigger event *)

#[local] Set Warnings "-register-all".

Inductive json :=
| JNone
| JBool (b : bool)
| JInt (z : Z)
| JStr (s : string)
| JList (l : list json)
| JDict (d : list (string * json)).

Fixpoint assoc (k : string) (d : list (string * json)) : option json :=
  match d with
  | [] => None
  | (k', v) :: d' => if decide (k = k') then Some v else assoc k d'
  end.

(** [v[k]] for a string subscript [k]. *)
Definition getitem (v : json) (k : string) : result json :=
  match v with
  | JDict d => match assoc k d with
               | Some x => Ok x
               | None => Raise (KeyError k)
               end
  | _ => Raise TypeError
  end.

(** [v[0]]: lists and strings are indexed, a dict is looked up at the
    integer key 0 (never a key of a decoded JSON object). *)
Definition getitem0 (v : json) : result json :=
  match v with
  | JList (x :: _) => Ok x
  | JList [] => Raise IndexError
  | JStr (String c _) => Ok (JStr (String c EmptyString))
  | JStr EmptyString => Raise IndexError
  | JDict _ => Raise (KeyError "0")
  | _ => Raise TypeError
  end.

(** ** Tabular data (the part of pandas the handler uses) *)

Inductive cell :=
| NaN
| CInt (z : Z)
| CStr (s : string).

Global Instance cell_eq_dec : EqDecision cell.
Proof. solve_decision. Defined.

Record DataFrame := mkDataFrame {
  columns : list string;
  rows : list (list cell)
}.

(** [len(df)] *)
Definition len (df : DataFrame) : nat := length (rows df).

Fixpoint index_of (c : string) (cs : list string) : option nat :=
  match cs with
  | [] => None
  | c' :: cs' => if decide (c = c') then Some 0 else S <$> index_of c cs'
  end.

Definition cell_at (i : nat) (r : list cell) : cell := default NaN (r !! i).

(** The positions of the [subset] columns, or the first missing label. *)
Fixpoint subset_positions (subset cs : list string) : result (list nat) :=
  match subset with
  | [] => Ok []
  | c :: subset' =>
      match index_of c cs with
      | None => Raise (KeyError c)
      | Some i =>
          match subset_positions subset' cs with
          | Ok ps => Ok (i :: ps)
          | Raise e => Raise e
          end
      end
  end.

Definition row_key (positions : list nat) (r : list cell) : list cell :=
  (λ i, cell_at i r) <$> positions.

(** Rows whose key was not seen before, in order ([keep="first"]). *)
Fixpoint keep_first (positions : list nat) (seen : list (list cell))
    (rs : list (list cell)) : list (list cell) :=
  match rs with
  | [] => []
  | r :: rs' =>
      let k := row_key positions r in
      if decide (k ∈ seen) then keep_first positions seen rs'
      else r :: keep_first positions (k :: seen) rs'
  end.

(** [df.drop_duplicates(subset=subset)] *)
Definition drop_duplicates (subset : list string) (df : DataFrame)
    : result DataFrame :=
  match subset_positions subset (columns df) with
  | Raise e => Raise e
  | Ok ps => Ok (mkDataFrame (columns df) (keep_first ps [] (rows df)))
  end.

(** ** The world: S3, log, clock *)

Inductive s3_call :=
| GetObject (bucket key : string)
| HeadObject (bucket key : string)
| PutObject (bucket key body : string).

Inductive log_record :=
| InfoProcessingFile (key : json)
| InfoAlreadyProcessed
| ErrorSchemaValidation (msg : string)
| InfoMetrics (file : json) (hash : string)
    (total_rows valid_rows invalid_rows : nat) (processing_time : Z).

Record world := mkWorld {
  objects : gmap (string * string) string;   (* (bucket, key) ↦ body *)
  fault : list s3_call → s3_call → option exn;  (* service failures, by request history *)
  trace : list s3_call;                      (* requests sent so far *)
  log : list log_record;
  clock : nat → Z;                           (* n-th reading of time.time(), in microseconds *)
  ticks : nat                                (* readings taken so far *)
}.

Definition M (A : Type) : Type := world → result A * world.

Global Instance M_ret : MRet M := λ A a w, (Ok a, w).
Global Instance M_bind : MBind M := λ A B f m w,
  match m w with
  | (Ok a, w') => f a w'
  | (Raise e, w') => (Raise e, w')
  end.

Definition raise {A} (e : exn) : M A := λ w, (Raise e, w).

Definition lift {A} (r : result A) : M A :=
  match r with Ok a => mret a | Raise e => raise e end.

(** [try: body / except <E>: handler], where [catches] recognises [E]. *)
Definition try_except {A} (body : M A) (catches : exn → bool)
    (handler : exn → M A) : M A := λ w,
  match body w with
  | (Ok a, w') => (Ok a, w')
  | (Raise e, w') => if catches e then handler e w' else (Raise e, w')
  end.

Definition send (c : s3_call) (w : world) : world :=
  mkWorld (objects w) (fault w) (trace w ++ [c]) (log w) (clock w) (ticks w).

Definition store (b k body : string) (w : world) : world :=
  mkWorld (<[(b, k) := body]> (objects w)) (fault w) (trace w) (log w)
          (clock w) (ticks w).

Definition logger_emit (r : log_record) : M unit := λ w,
  (Ok tt, mkWorld (objects w) (fault w) (trace w) (log w ++ [r])
                  (clock w) (ticks w)).

(** [time.time()] *)
Definition time_time : M Z := λ w,
  (Ok (clock w (ticks w)),
   mkWorld (objects w) (fault w) (trace w) (log w) (clock w) (S (ticks w))).

(** boto3 validates that [Bucket] and [Key] are strings before sending. *)
Definition param_str (v : json) : result string :=
  match v with
  | JStr s => Ok s
  | _ => Raise (BotoCoreError "ParamValidationError")
  end.

(** [s3_client.get_object(Bucket=b, Key=k)["Body"].read()] *)
Definition get_object (b k : string) : M string := λ w,
  let w' := send (GetObject b k) w in
  match fault w (trace w) (GetObject b k) with
  | Some e => (Raise e, w')
  | None =>
      match objects w !! (b, k) with
      | Some body => (Ok body, w')
      | None => (Raise (ClientError "NoSuchKey"), w')
      end
  end.

(** [s3_client.head_object(Bucket=b, Key=k)] *)
Definition head_object (b k : string) : M unit := λ w,
  let w' := send (HeadObject b k) w in
  match fault w (trace w) (HeadObject b k) with
  | Some e => (Raise e, w')
  | None =>
      match objects w !! (b, k) with
      | Some _ => (Ok tt, w')
      | None => (Raise (ClientError "404"), w')
      end
  end.

(** [s3_client.put_object(Bucket=b, Key=k, Body=body)]: overwrites. *)
Definition put_object (b k body : string) : M unit := λ w,
  let w' := send (PutObject b k body) w in
  match fault w (trace w) (PutObject b k body) with
  | Some e => (Raise e, w')
  | None => (Ok tt, store b k body w')
  end.

(** ** Collaborators outside the two modules

    [utils.calculate_hash], [cleaning.normalize_dataframe] and
    [validation.validate_dataframe] are imported by the handler; their
    source is not part of the modules embedded here, and [pd.read_csv] /
    [DataFrame.to_csv] belong to pandas.  The handler is embedded over any
    implementation of them. *)

Class Collaborators := {
  calculate_hash : string → string;
  read_csv : string → result DataFrame;
  to_csv : DataFrame → string;
  normalize_dataframe : DataFrame → DataFrame;
  (* returns [(valid_df, invalid_df)] or raises; [ValueError] is the schema error *)
  validate_dataframe : DataFrame → result (DataFrame * DataFrame)
}.

(** [round(t1 - t0, 2)], for readings in microseconds: hundredths of a
    second, ties to even. *)
Definition round2 (us : Z) : Z :=
  let q := (us / 10000)%Z in
  let r := (us mod 10000)%Z in
  if (r <? 5000)%Z then q
  else if (5000 <? r)%Z then (q + 1)%Z
  else if Z.even q then q else (q + 1)%Z.

Section pipeline.
Context `{Collaborators}.

(** *** storage.py *)

(** [download_file] (storage.py, lines 12-32) *)
Definition download_file (bucket key : json) : M string :=
  b ← lift (param_str bucket);
  k ← lift (param_str key);
  get_object b k.

(** [upload_file] (storage.py, lines 35-66): serialize, then overwrite. *)
Definition upload_file (bucket : json) (key : string) (df : DataFrame)
    : M unit :=
  let csv_buffer := to_csv df in
  b ← lift (param_str bucket);
  put_object b key csv_buffer.

(** [file_exists] (storage.py, lines 69-97): the [except] clause names
    [ClientError] and nothing narrower. *)
Definition file_exists (bucket : json) (key : string) : M bool :=
  try_except
    (b ← lift (param_str bucket);
     head_object b key;;
     mret true)
    is_ClientError
    (λ _, mret false).

(** *** lambda_handler.py *)

(** [extract_s3_event] (lines 38-54) *)
Definition extract_s3_event (event : json) : result (json * json) :=
  records ← getitem event "Records";
  record ← getitem0 records;
  s3 ← getitem record "s3";
  bkt ← getitem s3 "bucket";
  bucket ← getitem bkt "name";
  s3' ← getitem record "s3";
  obj ← getitem s3' "object";
  key ← getitem obj "key";
  Ok (bucket, key).

(** [load_into_dataframe] (lines 57-70) *)
Definition load_into_dataframe (file_bytes : string) : result DataFrame :=
  read_csv file_bytes.

(** The two f-strings of lines 108-109. *)
Definition processed_key_of (file_hash : string) : string :=
  "processed/users_cleaned_" +:+ file_hash +:+ ".csv".

Definition error_key_of (file_hash : string) : string :=
  "error/invalid_rows_" +:+ file_hash +:+ ".csv".

(** [lambda_handler] (lines 73-155).  The three [return]s are the three
    ends of the nesting; [context] is not used. *)
Definition lambda_handler (event context : json) : M unit :=
  start_time ← time_time;
  '(bucket, key) ← lift (extract_s3_event event);
  logger_emit (InfoProcessingFile key);;
  file_bytes ← download_file bucket key;
  let file_hash := calculate_hash file_bytes in
  let processed_key := processed_key_of file_hash in
  let error_key := error_key_of file_hash in
  already ← file_exists bucket processed_key;
  if already : bool then
    logger_emit InfoAlreadyProcessed
  else
    df ← lift (load_into_dataframe file_bytes);
    let total_rows := len df in
    let df := normalize_dataframe df in
    match validate_dataframe df with
    | Raise (ValueError e) =>
        logger_emit (ErrorSchemaValidation e);;
        upload_file bucket error_key df
    | Raise e => raise e
    | Ok (valid_df, invalid_df) =>
        valid_df ← lift (drop_duplicates ["user_id"] valid_df);
        let valid_rows := len valid_df in
        let invalid_rows := len invalid_df in
        (if decide (0 < valid_rows)
         then upload_file bucket processed_key valid_df
         else mret tt);;
        (if decide (0 < invalid_rows)
         then upload_file bucket error_key invalid_df
         else mret tt);;
        now ← time_time;
        let processing_time := round2 (now - start_time) in
        logger_emit (InfoMetrics key file_hash total_rows valid_rows
                                 invalid_rows processing_time)
    end.

End pipeline.

(** ** A reference implementation of the collaborators

    Used to run the handler on concrete files. *)

Module MD5.
Local Open Scope Z_scope.

Definition K : list Z :=
  [3614090360; 3905402710; 606105819; 3250441966; 4118548399; 1200080426;
   2821735955; 4249261313; 1770035416; 2336552879; 4294925233; 2304563134;
   1804603682; 4254626195; 2792965006; 1236535329; 4129170786; 3225465664;
   643717713; 3921069994; 3593408605; 38016083; 3634488961; 3889429448;
   568446438; 3275163606; 4107603335; 1163531501; 2850285829; 4243563512;
   1735328473; 2368359562; 4294588738; 2272392833; 1839030562; 4259657740;
   2763975236; 1272893353; 4139469664; 3200236656; 681279174; 3936430074;
   3572445317; 76029189; 3654602809; 3873151461; 530742520; 3299628645;
   4096336452; 1126891415; 2878612391; 4237533241; 1700485571; 2399980690;
   4293915773; 2240044497; 1873313359; 4264355552; 2734768916; 1309151649;
   4149444226; 3174756917; 718787259; 3951481745].

Definition shifts : list Z :=
  [7; 12; 17; 22; 7; 12; 17; 22; 7; 12; 17; 22; 7; 12; 17; 22;
   5; 9; 14; 20; 5; 9; 14; 20; 5; 9; 14; 20; 5; 9; 14; 20;
   4; 11; 16; 23; 4; 11; 16; 23; 4; 11; 16; 23; 4; 11; 16; 23;
   6; 10; 15; 21; 6; 10; 15; 21; 6; 10; 15; 21; 6; 10; 15; 21].

Definition w32 (x : Z) : Z := x mod 2 ^ 32.
Definition not32 (x : Z) : Z := Z.lxor x 4294967295.
Definition rotl (x c : Z) : Z :=
  w32 (Z.lor (Z.shiftl x c) (Z.shiftr x (32 - c))).

Definition bytes_of (s : string) : list Z :=
  (λ a, Z.of_nat (Ascii.nat_of_ascii a))
    <$> Stdlib.Strings.String.list_ascii_of_string s.

(** The [n] little-endian bytes of [x]. *)
Fixpoint le_bytes (n : nat) (x : Z) : list Z :=
  match n with
  | O => []
  | S n' => x mod 256 :: le_bytes n' (x / 256)
  end.

Fixpoint le_word (bs : list Z) : Z :=
  match bs with
  | [] => 0
  | b :: bs' => b + 256 * le_word bs'
  end.

Definition pad (msg : list Z) : list Z :=
  let n := Z.of_nat (length msg) in
  let zeros := Z.to_nat ((55 - n) mod 64) in
  msg ++ [128] ++ replicate zeros 0 ++ le_bytes 8 ((8 * n) mod 2 ^ 64).

Fixpoint chunks (fuel size : nat) (bs : list Z) : list (list Z) :=
  match fuel, bs with
  | O, _ | _, [] => []
  | S fuel', _ => take size bs :: chunks fuel' size (drop size bs)
  end.

Definition round (m : list Z) (st : Z * Z * Z * Z) (i : nat)
    : Z * Z * Z * Z :=
  let '(a, b, c, d) := st in
  let iz := Z.of_nat i in
  let '(f, g) :=
    if iz <? 16 then (Z.lor (Z.land b c) (Z.land (not32 b) d), iz)
    else if iz <? 32 then
      (Z.lor (Z.land d b) (Z.land (not32 d) c), (5 * iz + 1) mod 16)
    else if iz <? 48 then (Z.lxor b (Z.lxor c d), (3 * iz + 5) mod 16)
    else (Z.lxor c (Z.lor b (not32 d)), (7 * iz) mod 16) in
  let f' := w32 (f + a + default 0 (K !! i) + default 0 (m !! Z.to_nat g)) in
  (d, w32 (b + rotl f' (default 0 (shifts !! i))), b, c).

Definition compress (st : Z * Z * Z * Z) (chunk : list Z)
    : Z * Z * Z * Z :=
  let m := le_word <$> chunks 16 4 chunk in
  let '(a, b, c, d) := foldl (round m) st (seq 0 64) in
  let '(a0, b0, c0, d0) := st in
  (w32 (a0 + a), w32 (b0 + b), w32 (c0 + c), w32 (d0 + d)).

Definition digest (msg : list Z) : list Z :=
  let p := pad msg in
  let '(a, b, c, d) :=
    foldl compress (1732584193, 4023233417, 2562383102, 271733878)
          (chunks (length p) 64 p) in
  le_bytes 4 a ++ le_bytes 4 b ++ le_bytes 4 c ++ le_bytes 4 d.

Definition hex_digit (x : Z) : string :=
  default ""
    ((λ c, String c EmptyString)
       <$> (Stdlib.Strings.String.list_ascii_of_string "0123456789abcdef"
              !! Z.to_nat x)).

Definition hex_byte (b : Z) : string :=
  hex_digit (b / 16) +:+ hex_digit (b mod 16).

Definition hexdigest (s : string) : string :=
  foldr (λ b acc, hex_byte b +:+ acc) "" (digest (bytes_of s)).
End MD5.

Module Reference.

Definition LF : Ascii.ascii := Ascii.ascii_of_nat 10.
Definition comma : Ascii.ascii := Ascii.ascii_of_nat 44.
Definition minus : Ascii.ascii := Ascii.ascii_of_nat 45.
Definition nl : string := String LF EmptyString.

Fixpoint split (sep : Ascii.ascii) (s : string) : list string :=
  match s with
  | EmptyString => [""]
  | String c s' =>
      if decide (c = sep) then "" :: split sep s'
      else match split sep s' with
           | [] => [String c EmptyString]
           | f :: fs => String c f :: fs
           end
  end.

Definition join (sep : string) (l : list string) : string :=
  match l with
  | [] => ""
  | x :: xs => foldl (λ acc y, acc +:+ sep +:+ y) x xs
  end.

Fixpoint lstrip (s : string) : string :=
  match s with
  | EmptyString => ""
  | String c s' => if Ascii.is_space c then lstrip s' else s
  end.

Definition strip (s : string) : string :=
  String.rev (lstrip (String.rev (lstrip s))).

Definition lower_ascii (c : Ascii.ascii) : Ascii.ascii :=
  let n := Ascii.nat_of_ascii c in
  if decide (65 ≤ n ≤ 90)%nat then Ascii.ascii_of_nat (n + 32) else c.

Fixpoint lower (s : string) : string :=
  match s with
  | EmptyString => ""
  | String c s' => String (lower_ascii c) (lower s')
  end.

Fixpoint digits (acc : N) (s : string) : option N :=
  match s with
  | EmptyString => Some acc
  | String c s' =>
      match Ascii.is_nat c with
      | Some d => digits (10 * acc + N.of_nat d)%N s'
      | None => None
      end
  end.

Definition parse_int (s : string) : option Z :=
  match s with
  | EmptyString => None
  | String c s' =>
      if decide (c = minus) then
        if decide (s' = "") then None
        else Z.opp ∘ Z.of_N <$> digits 0 s'
      else Z.of_N <$> digits 0 s
  end.

Definition parse_cell (s : string) : cell :=
  if decide (s = "") then NaN
  else match parse_int s with
       | Some z => CInt z
       | None => CStr s
       end.

Fixpoint decimal (fuel : nat) (n : N) (acc : string) : string :=
  match fuel with
  | O => acc
  | S fuel' =>
      let d := Ascii.ascii_of_N (48 + n mod 10)%N in
      if decide (n < 10)%N then String d acc
      else decimal fuel' (n / 10)%N (String d acc)
  end.

Definition int_text (z : Z) : string :=
  let n := Z.abs_N z in
  let s := decimal (S (N.to_nat (N.log2 n))) n "" in
  if decide (z < 0)%Z then "-" +:+ s else s.

Definition cell_text (c : cell) : string :=
  match c with
  | NaN => ""
  | CInt z => int_text z
  | CStr s => s
  end.

(** A plain reader in place of [pd.read_csv]: the first non-blank line
    is the header, fields are separated by commas (no quoting), an empty
    field is [NaN], a decimal integer is a number, short rows are filled
    with [NaN], a row longer than the header is a parser error and an
    input without any line is an [EmptyDataError]. *)
Definition read_csv (content : string) : result DataFrame :=
  match filter (λ l, l ≠ "") (split LF content) with
  | [] => Raise (PandasError "EmptyDataError")
  | header :: body =>
      let cols := split comma header in
      let parsed : list (list cell) :=
        (λ l, parse_cell <$> split comma l) <$> body in
      if decide (Forall (λ r : list cell, (length r ≤ length cols)%nat) parsed)
      then Ok (mkDataFrame cols
                 ((λ r : list cell,
                     (r ++ replicate (length cols - length r) NaN)%list)
                    <$> parsed))
      else Raise (PandasError "ParserError")
  end.

(** [df.to_csv(index=False)]: header line, then one line per row. *)
Definition to_csv (df : DataFrame) : string :=
  foldr (λ line acc, line +:+ nl +:+ acc) ""
    (join "," (columns df)
       :: ((λ r : list cell, join "," (cell_text <$> r)) <$> rows df)).

(** Modelled from the spec: [utils.calculate_hash] is not among the
    embedded modules; the fingerprint is a fixed-length deterministic
    digest of the bytes, which the handler documents as MD5. *)
Definition calculate_hash (file_bytes : string) : string :=
  MD5.hexdigest file_bytes.

Definition normalize_cell (c : cell) : cell :=
  match c with
  | CStr s => CStr (strip s)
  | _ => c
  end.

(** Modelled from the spec: [cleaning.normalize_dataframe] is not among
    the embedded modules; it canonicalizes column names (case,
    whitespace) and trims string cell values, and never fails. *)
Definition normalize_dataframe (df : DataFrame) : DataFrame :=
  mkDataFrame ((λ c, lower (strip c)) <$> columns df)
              ((λ r : list cell, normalize_cell <$> r) <$> rows df).

Definition required_columns : list string := ["user_id"; "email"].

Definition present (c : cell) : bool :=
  match c with
  | NaN => false
  | CStr s => bool_decide (s ≠ "")
  | CInt _ => true
  end.

(** Modelled from the spec: [validation.validate_dataframe] is not among
    the embedded modules; a missing required column is a schema error
    (a [ValueError]), otherwise every row goes to exactly one of the two
    partitions, a row being valid when its required fields are present
    and non-empty. *)
Definition validate_dataframe (df : DataFrame)
    : result (DataFrame * DataFrame) :=
  match subset_positions required_columns (columns df) with
  | Raise _ => Raise (ValueError "Missing required columns")
  | Ok ps =>
      let ok r := forallb (λ i, present (cell_at i r)) ps in
      Ok (mkDataFrame (columns df) (filter (λ r, ok r = true) (rows df)),
          mkDataFrame (columns df) (filter (λ r, ok r = false) (rows df)))
  end.

Definition collaborators : Collaborators :=
  Build_Collaborators calculate_hash read_csv to_csv normalize_dataframe
                      validate_dataframe.
End Reference.

(** ** Vocabulary of the statements *)

(** [event["Records"][0]] *)
Definition first_record (event : json) : result json :=
  records ← getitem event "Records";
  getitem0 records.

(** The bucket name and object key that a record carries. *)
Definition record_location (record : json) : result (json * json) :=
  s3 ← getitem record "s3";
  bkt ← getitem s3 "bucket";
  bucket ← getitem bkt "name";
  s3' ← getitem record "s3";
  obj ← getitem s3' "object";
  key ← getitem obj "key";
  Ok (bucket, key).

(** The field reached from [v] through nested objects, if every step
    exists. *)
Fixpoint lookup_path (v : json) (path : list string) : option json :=
  match path with
  | [] => Some v
  | k :: path' =>
      match v with
      | JDict d =>
          match assoc k d with
          | Some x => lookup_path x path'
          | None => None
          end
      | _ => None
      end
  end.

(** The ["Records"] list of an event, when it has one. *)
Definition records_of (event : json) : option (list json) :=
  match event with
  | JDict d =>
      match assoc "Records" d with
      | Some (JList l) => Some l
      | _ => None
      end
  | _ => None
  end.

(** The event has no ["Records"] list, or an empty one, or its first
    record lacks [s3.bucket.name] or [s3.object.key]. *)
Definition lacks_location (event : json) : Prop :=
  match records_of event with
  | None | Some [] => True
  | Some (record :: _) =>
      lookup_path record ["s3"; "bucket"; "name"] = None ∨
      lookup_path record ["s3"; "object"; "key"] = None
  end.

(** The world after one reading of the clock and nothing else. *)
Definition tick (w : world) : world :=
  mkWorld (objects w) (fault w) (trace w) (log w) (clock w) (S (ticks w)).

(** The download of [(b, k)] from [w] succeeds with [bytes]. *)
Definition downloads (w : world) (b k bytes : string) : Prop :=
  fault w (trace w) (GetObject b k) = None ∧ objects w !! (b, k) = Some bytes.

(** After that download the existence check on [(b, pk)] answers false:
    the HEAD request meets a [ClientError], or no object is stored there. *)
Definition gate_open (w : world) (b k pk : string) : Prop :=
  match fault w (trace w ++ [GetObject b k]) (HeadObject b pk) with
  | Some e => is_ClientError e = true
  | None => objects w !! (b, pk) = None
  end.

(** The requests a run added to the trace. *)
Definition issued (w w' : world) : list s3_call :=
  drop (length (trace w)) (trace w').

Definition is_metrics (r : log_record) : bool :=
  match r with InfoMetrics _ _ _ _ _ _ => true | _ => false end.

Section run_vocabulary.
Context `{Collaborators}.

(** The run of [event] from [w] downloads [bytes] from [(b, k)], passes
    the idempotency gate and parses the bytes into [df]. *)
Definition reaches_validation (event : json) (w : world)
    (b k bytes : string) (df : DataFrame) : Prop :=
  extract_s3_event event = Ok (JStr b, JStr k) ∧
  downloads w b k bytes ∧
  gate_open w b k (processed_key_of (calculate_hash bytes)) ∧
  load_into_dataframe bytes = Ok df.

(** The uploads of steps 9 and 10 for a fingerprint [h], a deduplicated
    valid partition and an invalid partition. *)
Definition planned_uploads (b h : string) (valid_df invalid_df : DataFrame)
    : list s3_call :=
  (if decide (0 < len valid_df)%nat
   then [PutObject b (processed_key_of h) (to_csv valid_df)] else []) ++
  (if decide (0 < len invalid_df)%nat
   then [PutObject b (error_key_of h) (to_csv invalid_df)] else []).

(** The stored objects once the planned uploads have succeeded. *)
Definition stored_after (b h : string) (valid_df invalid_df : DataFrame)
    (objs : gmap (string * string) string) : gmap (string * string) string :=
  let objs1 :=
    if decide (0 < len valid_df)%nat
    then <[(b, processed_key_of h) := to_csv valid_df]> objs else objs in
  if decide (0 < len invalid_df)%nat
  then <[(b, error_key_of h) := to_csv invalid_df]> objs1 else objs1.

(** The uploads that follow the existence check in a run on [bytes]:
    none (skip, or an exception before any upload), the whole normalized
    file to the error location (schema error), or the planned uploads up
    to the first one that fails. *)
Definition uploads_of (b bytes : string) (puts : list s3_call) : Prop :=
  puts = [] ∨
  (∃ df msg,
     load_into_dataframe bytes = Ok df ∧
     validate_dataframe (normalize_dataframe df) = Raise (ValueError msg) ∧
     puts = [PutObject b (error_key_of (calculate_hash bytes))
               (to_csv (normalize_dataframe df))]) ∨
  (∃ df valid_df invalid_df deduped,
     load_into_dataframe bytes = Ok df ∧
     validate_dataframe (normalize_dataframe df) = Ok (valid_df, invalid_df) ∧
     drop_duplicates ["user_id"] valid_df = Ok deduped ∧
     puts `prefix_of`
       planned_uploads b (calculate_hash bytes) deduped invalid_df).
End run_vocabulary.

(** ** Sample events, files and worlds *)

Module Samples.
Import Reference.

Definition s3_event (bucket key : string) (more : list json) : json :=
  JDict [("Records",
          JList (JDict [("eventName", JStr "ObjectCreated:Put");
                        ("s3", JDict [("bucket", JDict [("name", JStr bucket)]);
                                      ("object", JDict [("key", JStr key)])])]
                 :: more))].

Definition context : json := JNone.

Definition no_faults : list s3_call → s3_call → option exn := λ _ _, None.

Definition seconds (n : nat) : Z := (Z.of_nat n * 1000000)%Z.

Definition bucket_with (files : list (string * string)) : world :=
  mkWorld (list_to_map ((λ f, (("data", f.1), f.2)) <$> files))
          no_faults [] [] seconds 0.

(** Three well-formed rows, two of them with [user_id] 7, and one row
    without an email. *)
Definition users_csv : string :=
  "user_id,email,age" +:+ nl +:+
  "7,a@example.com,30" +:+ nl +:+
  "8,b@example.com,41" +:+ nl +:+
  "7,c@example.com,52" +:+ nl +:+
  "9,,23" +:+ nl.

(** No [user_id] column. *)
Definition no_user_id_csv : string :=
  "email,age" +:+ nl +:+
  "a@example.com,30" +:+ nl.

(** Every row lacks its email. *)
Definition all_invalid_csv : string :=
  "user_id,email" +:+ nl +:+
  "1," +:+ nl.

Definition users_parsed : DataFrame :=
  mkDataFrame ["user_id"; "email"; "age"]
    [[CInt 7; CStr "a@example.com"; CInt 30];
     [CInt 8; CStr "b@example.com"; CInt 41];
     [CInt 7; CStr "c@example.com"; CInt 52];
     [CInt 9; NaN; CInt 23]].

Definition users_valid : DataFrame :=
  mkDataFrame ["user_id"; "email"; "age"]
    [[CInt 7; CStr "a@example.com"; CInt 30];
     [CInt 8; CStr "b@example.com"; CInt 41];
     [CInt 7; CStr "c@example.com"; CInt 52]].

Definition users_invalid : DataFrame :=
  mkDataFrame ["user_id"; "email"; "age"] [[CInt 9; NaN; CInt 23]].

Definition users_deduped : DataFrame :=
  mkDataFrame ["user_id"; "email"; "age"]
    [[CInt 7; CStr "a@example.com"; CInt 30];
     [CInt 8; CStr "b@example.com"; CInt 41]].

Definition no_user_id_parsed : DataFrame :=
  mkDataFrame ["email"; "age"] [[CStr "a@example.com"; CInt 30]].

Definition users_df : DataFrame :=
  mkDataFrame ["user_id"; "email"]
    [[CInt 7; CStr "a@example.com"];
     [CInt 8; CStr "b@example.com"];
     [CInt 7; CStr "c@example.com"]].

(** A bucket that holds an object but answers HEAD requests with 403. *)
Definition forbidden_heads : world :=
  mkWorld {[ ("data", "report.csv") := users_csv ]}
          (λ _ c, match c with
                  | HeadObject _ _ => Some (ClientError "403")
                  | _ => None
                  end)
          [] [] seconds 0.

Definition run (event : json) (w : world) : result unit * world :=
  @lambda_handler collaborators event context w.
End Samples.

(** ** Vocabulary of the further properties *)

(** The records a run added to the log. *)
Definition logged (w w' : world) : list log_record :=
  drop (length (log w)) (log w').

Section store_vocabulary.
Context `{Collaborators}.

(** Every artifact that the handler would upload for [bytes] in bucket [b]
    is stored in [objs] already, with the content it would be given. *)
Definition outputs_stored (b bytes : string)
    (objs : gmap (string * string) string) : Prop :=
  let h := calculate_hash bytes in
  match load_into_dataframe bytes with
  | Raise _ => True
  | Ok df =>
      match validate_dataframe (normalize_dataframe df) with
      | Raise (ValueError _) =>
          objs !! (b, error_key_of h) = Some (to_csv (normalize_dataframe df))
      | Raise _ => True
      | Ok (valid_df, invalid_df) =>
          match drop_duplicates ["user_id"] valid_df with
          | Raise _ => True
          | Ok deduped =>
              ((0 < len deduped)%nat →
               objs !! (b, processed_key_of h) = Some (to_csv deduped)) ∧
              ((0 < len invalid_df)%nat →
               objs !! (b, error_key_of h) = Some (to_csv invalid_df))
          end
      end
  end.
End store_vocabulary.

Module MoreSamples.
Import Reference.

(** Keys under [error/] begin with the letter e (code 101). *)
Definition under_error_prefix (key : string) : bool :=
  match key with
  | String c _ => bool_decide (c = Ascii.ascii_of_nat 101)
  | EmptyString => false
  end.

(** A bucket whose uploads to the error prefix are refused. *)
Definition refused_error_uploads : world :=
  mkWorld {[ ("data", "in/users.csv") := Samples.users_csv ]}
          (λ _ c, match c with
                  | PutObject _ key _ =>
                      if under_error_prefix key
                      then Some (ClientError "403") else None
                  | _ => None
                  end)
          [] [] Samples.seconds 0.

(** A bucket whose uploads are all refused. *)
Definition refused_uploads : world :=
  mkWorld {[ ("data", "in/users.csv") := Samples.users_csv ]}
          (λ _ c, match c with
                  | PutObject _ _ _ => Some (ClientError "403")
                  | _ => None
                  end)
          [] [] Samples.seconds 0.

(** A file that is not a table at all: no line. *)
Definition empty_csv : string := "".




End MoreSamples.

(** * Properties *)

(** ** Deduplication keeps the first row of every key *)

Section keep_first_facts.
Variable ps : list nat.
Implicit Types (seen : list (list cell)) (rs : list (list cell)).

Lemma keep_first_sublist seen rs : sublist (keep_first ps seen rs) rs.
Proof.
  revert seen. induction rs as [|r rs IH]; intros seen; simpl.
  - constructor.
  - case_decide; [apply sublist_cons | apply sublist_skip]; apply IH.
Qed.

Lemma keep_first_keys seen rs k :
  k ∈ row_key ps <$> keep_first ps seen rs ↔
  k ∈ row_key ps <$> rs ∧ k ∉ seen.
Proof.
  revert seen. induction rs as [|r rs IH]; intros seen; simpl.
  - rewrite elem_of_nil. tauto.
  - case_decide as Hseen.
    + rewrite IH, elem_of_cons. split; [tauto|].
      intros [[->|?] ?]; tauto.
    + rewrite fmap_cons, !elem_of_cons, IH, elem_of_cons. split.
      * intros [->|[? ?]]; tauto.
      * intros [[->|?] ?]; [tauto|].
        destruct (decide (k = row_key ps r)); tauto.
Qed.

Lemma keep_first_NoDup seen rs : NoDup (row_key ps <$> keep_first ps seen rs).
Proof.
  revert seen. induction rs as [|r rs IH]; intros seen; simpl.
  - constructor.
  - case_decide; [apply IH|].
    rewrite fmap_cons. constructor; [|apply IH].
    rewrite keep_first_keys, elem_of_cons. tauto.
Qed.

Lemma keep_first_first seen rs r :
  r ∈ keep_first ps seen rs →
  (row_key ps r ∉ seen) ∧
  (∃ i, rs !! i = Some r ∧
        ∀ j r', (j < i)%nat → rs !! j = Some r' →
                row_key ps r' ≠ row_key ps r).
Proof.
  revert seen. induction rs as [|x rs IH]; intros seen; simpl.
  - by rewrite elem_of_nil.
  - case_decide as Hseen.
    + intros Hr. destruct (IH _ Hr) as (Hk & i & Hi & Hfirst).
      split; [done|]. exists (S i). split; [done|].
      intros [|j] r' Hj Hr'; simpl in Hr'.
      * injection Hr' as <-. congruence.
      * apply (Hfirst j); [lia|done].
    + rewrite elem_of_cons. intros [->|Hr].
      * split; [done|]. exists 0%nat. split; [done|]. intros; lia.
      * destruct (IH _ Hr) as (Hk & i & Hi & Hfirst).
        rewrite elem_of_cons in Hk.
        split; [tauto|]. exists (S i). split; [done|].
        intros [|j] r' Hj Hr'; simpl in Hr'.
        -- injection Hr' as <-. intros Heq. apply Hk. by left.
        -- apply (Hfirst j); [lia|done].
Qed.

Lemma keep_first_nil seen rs : keep_first ps seen rs = [] → seen = [] → rs = [].
Proof.
  intros Hnil ->. destruct rs as [|r rs]; [done|]. simpl in Hnil.
  destruct (decide (row_key ps r ∈ [])) as [Hin|];
    [by apply elem_of_nil in Hin | done].
Qed.
End keep_first_facts.

Lemma subset_positions_singleton c cs i :
  index_of c cs = Some i → subset_positions [c] cs = Ok [i].
Proof. intros Hi. simpl. by rewrite Hi. Qed.

Lemma row_key_singleton i (rs : list (list cell)) :
  row_key [i] <$> rs = (λ c, [c]) <$> (cell_at i <$> rs).
Proof. by rewrite <- list_fmap_compose. Qed.

Lemma elem_of_row_key_singleton i (rs : list (list cell)) v :
  [v] ∈ row_key [i] <$> rs ↔ v ∈ cell_at i <$> rs.
Proof.
  rewrite !list_elem_of_fmap. unfold row_key. simpl.
  split; intros (r & Heq & Hr); exists r; split; congruence.
Qed.

Lemma drop_duplicates_len subset df out :
  drop_duplicates subset df = Ok out →
  columns out = columns df ∧ ((0 < len out)%nat ↔ (0 < len df)%nat).
Proof.
  unfold drop_duplicates, len.
  destruct (subset_positions subset (columns df)) as [ps|]; [|done].
  intros [= <-]. simpl. split; [done|].
  pose proof (sublist_length _ _ (keep_first_sublist ps [] (rows df))).
  destruct (keep_first ps [] (rows df)) eqn:Hk.
  - rewrite (keep_first_nil _ _ _ Hk eq_refl). done.
  - simpl in *. lia.
Qed.

Lemma drop_duplicates_user_id_unique df out i :
  drop_duplicates ["user_id"] df = Ok out →
  index_of "user_id" (columns out) = Some i →
  NoDup (cell_at i <$> rows out).
Proof.
  unfold drop_duplicates. simpl.
  destruct (index_of "user_id" (columns df)) as [i'|] eqn:Hi; [|done].
  intros [= <-]. simpl. rewrite Hi. intros [= ->].
  apply (NoDup_fmap_1 (λ c, [c])). rewrite <- row_key_singleton.
  apply keep_first_NoDup.
Qed.

(** C5: [drop_duplicates(subset=["user_id"])], as the handler applies it to
    the valid partition, succeeds whenever the column exists, keeps the
    schema and the order of the rows, retains exactly one row for every
    distinct [user_id] value (no value is lost, none occurs twice), and every
    retained row is the first row of the input carrying its [user_id]. *)
Theorem drop_duplicates_keeps_first_per_user_id (df : DataFrame) (i : nat) :
  index_of "user_id" (columns df) = Some i →
  ∃ out,
    drop_duplicates ["user_id"] df = Ok out ∧
    columns out = columns df ∧
    sublist (rows out) (rows df) ∧
    NoDup (cell_at i <$> rows out) ∧
    (∀ v, v ∈ cell_at i <$> rows df ↔ v ∈ cell_at i <$> rows out) ∧
    (∀ r, r ∈ rows out →
       ∃ n, rows df !! n = Some r ∧
            ∀ m r', (m < n)%nat → rows df !! m = Some r' →
                    cell_at i r' ≠ cell_at i r).
Proof.
  intros Hi. unfold drop_duplicates.
  rewrite (subset_positions_singleton _ _ _ Hi).
  eexists. split; [reflexivity|]. simpl.
  split; [done|]. split; [apply keep_first_sublist|].
  split; [|split].
  - apply (NoDup_fmap_1 (λ c, [c])). rewrite <- row_key_singleton.
    apply keep_first_NoDup.
  - intros v.
    rewrite <- !elem_of_row_key_singleton, keep_first_keys, elem_of_nil.
    tauto.
  - intros r Hr. destruct (keep_first_first _ _ _ _ Hr) as (_ & n & Hn & Hfirst).
    exists n. split; [done|]. intros m r' Hm Hr' Heq.
    apply (Hfirst m r' Hm Hr'). unfold row_key. simpl. by rewrite Heq.
Qed.

Example drop_duplicates_sample :
  drop_duplicates ["user_id"] Samples.users_df
  = Ok (mkDataFrame ["user_id"; "email"]
          [[CInt 7; CStr "a@example.com"]; [CInt 8; CStr "b@example.com"]]).
Proof. reflexivity. Qed.

Lemma drop_duplicates_keeps_first_per_user_id_witness :
  ∃ out,
    drop_duplicates ["user_id"] Samples.users_df = Ok out ∧
    columns out = columns Samples.users_df ∧
    sublist (rows out) (rows Samples.users_df) ∧
    NoDup (cell_at 0 <$> rows out) ∧
    (∀ v, v ∈ cell_at 0 <$> rows Samples.users_df ↔ v ∈ cell_at 0 <$> rows out) ∧
    (∀ r, r ∈ rows out →
       ∃ n, rows Samples.users_df !! n = Some r ∧
            ∀ m r', (m < n)%nat → rows Samples.users_df !! m = Some r' →
                    cell_at 0 r' ≠ cell_at 0 r).
Proof.
  apply (drop_duplicates_keeps_first_per_user_id Samples.users_df 0).
  reflexivity.
Defined.

(** ** The storage adapter *)

Lemma file_exists_eq (b key : string) (w : world) :
  file_exists (JStr b) key w =
    (match fault w (trace w) (HeadObject b key) with
     | None => Ok (bool_decide (is_Some (objects w !! (b, key))))
     | Some (ClientError _) => Ok false
     | Some e => Raise e
     end,
     send (HeadObject b key) w).
Proof.
  unfold file_exists, try_except, head_object, mbind, M_bind, mret, M_ret.
  simpl.
  destruct (fault w (trace w) (HeadObject b key)) as [[]|]; simpl; try done.
  by destruct (objects w !! (b, key)).
Qed.

Lemma file_exists_open (w : world) (b k pk : string) :
  gate_open w b k pk →
  file_exists (JStr b) pk (send (GetObject b k) w)
  = (Ok false, send (HeadObject b pk) (send (GetObject b k) w)).
Proof.
  unfold gate_open. intros Hopen. rewrite file_exists_eq. simpl.
  destruct (fault w (trace w ++ [GetObject b k]) (HeadObject b pk))
    as [[]|]; try done.
  by rewrite Hopen.
Qed.

Lemma upload_file_eq `{Collaborators} (b key : string) (df : DataFrame)
    (w : world) :
  upload_file (JStr b) key df w =
    match fault w (trace w) (PutObject b key (to_csv df)) with
    | Some e => (Raise e, send (PutObject b key (to_csv df)) w)
    | None =>
        (Ok tt, store b key (to_csv df) (send (PutObject b key (to_csv df)) w))
    end.
Proof. reflexivity. Qed.

(** C3 (as the code has it): with a string bucket, [file_exists] always
    sends exactly one HEAD request; it returns [True] when the request
    succeeds (the object is stored), [False] when the request raises a
    [ClientError] of any code (the 404 of an absent object, but equally a
    403 on an object that is stored), and lets only the errors that are not
    [ClientError]s propagate. *)
Theorem file_exists_catches_every_client_error (b key : string) (w : world) :
  file_exists (JStr b) key w =
    (match fault w (trace w) (HeadObject b key) with
     | None => Ok (bool_decide (is_Some (objects w !! (b, key))))
     | Some (ClientError _) => Ok false
     | Some e => Raise e
     end,
     send (HeadObject b key) w).
Proof. apply file_exists_eq. Qed.

(** C3 (counterexample): the object is stored, the HEAD request is answered
    with 403, and [file_exists] returns [False] instead of raising. *)
Lemma file_exists_false_on_access_denied :
  objects Samples.forbidden_heads !! ("data", "report.csv")
    = Some Samples.users_csv ∧
  (head_object "data" "report.csv" Samples.forbidden_heads).1
    = Raise (ClientError "403") ∧
  (file_exists (JStr "data") "report.csv" Samples.forbidden_heads).1
    = Ok false.
Proof. repeat split; vm_compute; reflexivity. Qed.

(** ** Event extraction *)

Lemma extract_via_first_record (event : json) :
  extract_s3_event event = first_record event ≫= record_location.
Proof.
  unfold extract_s3_event, first_record, record_location.
  destruct (getitem event "Records") as [records|]; simpl; [|done].
  by destruct (getitem0 records).
Qed.

Lemma handler_without_location `{Collaborators} (event ctx : json)
    (w : world) (e : exn) :
  extract_s3_event event = Raise e →
  lambda_handler event ctx w = (Raise e, tick w).
Proof.
  intros Hex. unfold lambda_handler, mbind, M_bind, time_time. simpl.
  by rewrite Hex.
Qed.

Lemma getitem_path3 (v : json) (a b c : string) :
  lookup_path v [a; b; c] = None →
  ∃ e, (x ← getitem v a; y ← getitem x b; getitem y c) = Raise e.
Proof.
  simpl. destruct v as [| | | |?|d]; try (by intros; eexists).
  simpl. destruct (assoc a d) as [x|]; simpl; [|by intros; eexists].
  destruct x as [| | | |?|d']; try (by intros; eexists).
  simpl. destruct (assoc b d') as [y|]; simpl; [|by intros; eexists].
  destruct y as [| | | |?|d'']; try (by intros; eexists).
  simpl. destruct (assoc c d''); [done|by intros; eexists].
Qed.

Lemma record_location_lacks (record : json) :
  lookup_path record ["s3"; "bucket"; "name"] = None ∨
  lookup_path record ["s3"; "object"; "key"] = None →
  ∃ e, record_location record = Raise e.
Proof.
  unfold record_location.
  intros [Hb|Hk].
  - destruct (getitem_path3 _ _ _ _ Hb) as [e He]. exists e. revert He.
    unfold mbind, result_bind.
    destruct (getitem record "s3") as [s3|]; simpl; [|by intros [= ->]].
    destruct (getitem s3 "bucket") as [bkt|]; simpl; [|by intros [= ->]].
    destruct (getitem bkt "name"); simpl; by intros [= ->].
  - destruct (getitem_path3 _ _ _ _ Hk) as [e He]. revert He.
    unfold mbind, result_bind.
    destruct (getitem record "s3") as [s3|]; simpl; [|by eexists].
    destruct (getitem s3 "bucket") as [bkt|]; simpl; [|by eexists].
    destruct (getitem bkt "name"); simpl; [|by eexists].
    destruct (getitem s3 "object") as [obj|]; simpl; [|by eexists].
    destruct (getitem obj "key"); simpl; [done|by eexists].
Qed.

Lemma record_location_of_string (s : string) :
  record_location (JStr s) = Raise TypeError.
Proof. reflexivity. Qed.

Lemma extract_lacks (event : json) :
  lacks_location event → ∃ e, extract_s3_event event = Raise e.
Proof.
  rewrite extract_via_first_record.
  unfold lacks_location, records_of, first_record.
  destruct event as [| | | |?|d]; try (by eexists).
  simpl. destruct (assoc "Records" d) as [records|]; simpl; [|by eexists].
  destruct records as [| | |s|l|?]; try (by eexists).
  - destruct s; by eexists.
  - destruct l as [|record l]; [by eexists|]. simpl.
    apply record_location_lacks.
Qed.

(** C9: when the event has no ["Records"] list or an empty one, or its
    first record lacks [s3.bucket.name] or [s3.object.key],
    [extract_s3_event] raises, and the handler raises the same exception
    having only read the clock: no request is sent to S3 (no download, no
    existence check, no upload), nothing is logged, no object changes. *)
Theorem missing_location_aborts_before_io `{Collaborators} (event : json) :
  lacks_location event →
  ∃ e, extract_s3_event event = Raise e ∧
       ∀ ctx w, lambda_handler event ctx w = (Raise e, tick w) ∧
                trace (tick w) = trace w ∧
                objects (tick w) = objects w ∧
                log (tick w) = log w.
Proof.
  intros Hlacks. destruct (extract_lacks event Hlacks) as [e He].
  exists e. split; [done|]. intros ctx w.
  split; [by apply handler_without_location | done].
Qed.

Lemma missing_location_aborts_before_io_witness :
  ∃ e, extract_s3_event
         (JDict [("Records", JList [JDict [("s3", JDict [("bucket", JDict [])])]])])
       = Raise e ∧
       ∀ ctx w,
         @lambda_handler Reference.collaborators
           (JDict [("Records", JList [JDict [("s3", JDict [("bucket", JDict [])])]])])
           ctx w = (Raise e, tick w) ∧
         trace (tick w) = trace w ∧
         objects (tick w) = objects w ∧
         log (tick w) = log w.
Proof.
  apply (@missing_location_aborts_before_io Reference.collaborators).
  simpl. left. reflexivity.
Defined.

Example missing_records_raises_KeyError :
  (Samples.run (JDict []) (Samples.bucket_with [])).1 = Raise (KeyError "Records").
Proof. reflexivity. Qed.

Example empty_records_raises_IndexError :
  (Samples.run (JDict [("Records", JList [])]) (Samples.bucket_with [])).1
  = Raise IndexError.
Proof. reflexivity. Qed.

(** C8: the handler reads nothing of the event but the bucket name and the
    object key of [Records[0]].  Two events whose first records carry the
    same name and key (in particular two events with the same first
    record, whatever records follow it) make the handler return the same
    result and leave the same world: same requests, same stored objects,
    same log. *)
Theorem only_first_record_is_honoured `{Collaborators}
    (event1 event2 ctx1 ctx2 record1 record2 : json) (w : world) :
  first_record event1 = Ok record1 →
  first_record event2 = Ok record2 →
  record_location record1 = record_location record2 →
  lambda_handler event1 ctx1 w = lambda_handler event2 ctx2 w.
Proof.
  intros H1 H2 Hloc.
  assert (extract_s3_event event1 = extract_s3_event event2) as Hex.
  { rewrite !extract_via_first_record, H1, H2. simpl. exact Hloc. }
  unfold lambda_handler, mbind, M_bind. simpl. by rewrite Hex.
Qed.

Lemma only_first_record_is_honoured_witness :
  Samples.run (Samples.s3_event "data" "in/users.csv" [])
              (Samples.bucket_with [("in/users.csv", Samples.users_csv)])
  = Samples.run (Samples.s3_event "data" "in/users.csv"
                   [JDict [("s3", JDict [("bucket", JDict [("name", JStr "other")]);
                                         ("object", JDict [("key", JStr "in/more.csv")])])]])
                (Samples.bucket_with [("in/users.csv", Samples.users_csv)]).
Proof.
  apply (@only_first_record_is_honoured Reference.collaborators
           _ _ _ _
           (JDict [("eventName", JStr "ObjectCreated:Put");
                   ("s3", JDict [("bucket", JDict [("name", JStr "data")]);
                                 ("object", JDict [("key", JStr "in/users.csv")])])])
           (JDict [("eventName", JStr "ObjectCreated:Put");
                   ("s3", JDict [("bucket", JDict [("name", JStr "data")]);
                                 ("object", JDict [("key", JStr "in/users.csv")])])]));
    reflexivity.
Defined.

(** ** Runs of the handler *)

Ltac run_simpl :=
  cbn -[processed_key_of error_key_of file_exists upload_file
        load_into_dataframe drop_duplicates round2 len].

Ltac issued_simpl :=
  unfold issued, send, store; cbn [trace snd];
  rewrite <- ?app_assoc;
  first [rewrite drop_all | rewrite drop_app_length]; cbn [app].

Ltac run_leaf :=
  eexists; split; [done|]; split; [issued_simpl; reflexivity|];
  first
    [ by left
    | right; left; by eauto 10
    | right; right; do 4 eexists; repeat (split; [eassumption|]);
      unfold planned_uploads; repeat case_decide; try lia; by eexists ].

Ltac world_eq :=
  unfold send, store; run_simpl; rewrite <- ?app_assoc; cbn [app].

(** From a run that reaches validation, the goal about [lambda_handler]
    stepped up to the call of [validate_dataframe]. *)
Ltac to_validation Hreach :=
  let Hex := fresh "Hex" in
  let Hf := fresh "Hf" in
  let Ho := fresh "Ho" in
  let Hgate := fresh "Hgate" in
  let Hload := fresh "Hload" in
  destruct Hreach as (Hex & [Hf Ho] & Hgate & Hload);
  unfold lambda_handler, mbind, M_bind, time_time, logger_emit, lift, raise,
    mret, M_ret;
  rewrite Hex; run_simpl;
  unfold download_file, get_object, mbind, M_bind, lift, mret, M_ret;
  run_simpl; rewrite Hf, Ho;
  rewrite file_exists_eq; run_simpl;
  unfold gate_open in Hgate;
  destruct (fault _ (trace _ ++ [GetObject _ _]) (HeadObject _ _)) as [[]|];
  try discriminate Hgate;
  try rewrite Hgate;
  run_simpl; rewrite Hload; run_simpl.

Section runs.
Context `{Collaborators}.

Lemma run_requests (ev ctx : json) (w : world) :
  let calls := issued w (lambda_handler ev ctx w).2 in
  calls = [] ∨
  ∃ b k,
    calls = [GetObject b k] ∨
    ∃ bytes puts,
      objects w !! (b, k) = Some bytes ∧
      calls = GetObject b k
                :: HeadObject b (processed_key_of (calculate_hash bytes))
                :: puts ∧
      uploads_of b bytes puts.
Proof.
  cbv zeta.
  destruct (extract_s3_event ev) as [[bucket key]|e] eqn:Hex.
  2: { rewrite (handler_without_location _ _ _ _ Hex). left. by issued_simpl. }
  unfold lambda_handler, mbind, M_bind, time_time, logger_emit, lift, raise,
    mret, M_ret.
  rewrite Hex. run_simpl.
  unfold download_file, get_object, mbind, M_bind, lift, raise, mret, M_ret.
  destruct bucket as [| | |b| |]; run_simpl; try (left; by issued_simpl).
  destruct key as [| | |k| |]; run_simpl; try (left; by issued_simpl).
  right. exists b, k.
  destruct (fault w (trace w) (GetObject b k)) as [e|];
    [left; by issued_simpl|].
  destruct (objects w !! (b, k)) as [bytes|] eqn:Hbytes;
    [|left; by issued_simpl].
  right. exists bytes. rewrite file_exists_eq. run_simpl.
  destruct (fault w (trace w ++ [GetObject b k]) (HeadObject b _)) as [[]|];
    run_simpl; try (by run_leaf).
  2: destruct (objects w !! (b, processed_key_of (calculate_hash bytes)));
       run_simpl; try (by run_leaf).
  all: destruct (load_into_dataframe bytes) as [df|] eqn:Hload;
         run_simpl; try (by run_leaf).
  all: destruct (validate_dataframe (normalize_dataframe df))
         as [[valid_df invalid_df]|[]] eqn:Hval;
         run_simpl; try (by run_leaf).
  all: try (rewrite upload_file_eq; run_simpl; destruct (fault _ _ _);
            by run_leaf).
  all: destruct (drop_duplicates ["user_id"] valid_df) as [deduped|] eqn:Hdd;
         run_simpl; try (by run_leaf).
  all: rewrite ?upload_file_eq.
  all: destruct (decide (0 < len deduped)%nat);
         destruct (decide (0 < len invalid_df)%nat);
         rewrite ?upload_file_eq; run_simpl;
         repeat (match goal with
                 | |- context [fault ?w ?t ?c] =>
                     destruct (fault w t c); run_simpl
                 end; rewrite ?upload_file_eq; run_simpl).
  all: by run_leaf.
Qed.

Lemma processed_key_not_error_key (h h' : string) :
  processed_key_of h ≠ error_key_of h'.
Proof. discriminate. Qed.

Lemma elem_of_planned_uploads (c : s3_call) (b h : string)
    (valid_df invalid_df : DataFrame) :
  c ∈ planned_uploads b h valid_df invalid_df ↔
  ((0 < len valid_df)%nat ∧
     c = PutObject b (processed_key_of h) (to_csv valid_df)) ∨
  ((0 < len invalid_df)%nat ∧
     c = PutObject b (error_key_of h) (to_csv invalid_df)).
Proof.
  unfold planned_uploads. rewrite elem_of_app.
  repeat case_decide; rewrite ?list_elem_of_singleton, ?elem_of_nil; tauto.
Qed.

(** C4: a run sends no request at all, or only the download of the
    source object [(b, k)], or that download followed by one existence
    check and by uploads; the existence check addresses
    [processed/users_cleaned_{h}.csv] and every upload addresses that key
    or [error/invalid_rows_{h}.csv], where [h] is the hash of the bytes
    downloaded.  The event, the source key [k] and the context enter none
    of these keys. *)
Theorem output_keys_come_from_the_fingerprint (ev ctx : json) (w : world) :
  let calls := issued w (lambda_handler ev ctx w).2 in
  calls = [] ∨
  ∃ b k,
    calls = [GetObject b k] ∨
    ∃ bytes puts,
      objects w !! (b, k) = Some bytes ∧
      calls = GetObject b k
                :: HeadObject b ("processed/users_cleaned_"
                                   +:+ calculate_hash bytes +:+ ".csv")
                :: puts ∧
      Forall (λ c, ∃ body,
                c = PutObject b ("processed/users_cleaned_"
                                   +:+ calculate_hash bytes +:+ ".csv") body ∨
                c = PutObject b ("error/invalid_rows_"
                                   +:+ calculate_hash bytes +:+ ".csv") body)
             puts.
Proof.
  destruct (run_requests ev ctx w) as [Hnone|(b & k & Hcalls)]; [by left|].
  right. exists b, k.
  destruct Hcalls as [Hget|(bytes & puts & Hbytes & Hcalls & Hputs)];
    [by left|].
  right. exists bytes, puts. split; [done|]. split; [done|].
  apply Forall_forall. intros c Hc.
  destruct Hputs as [->|[(df & msg & _ & _ & ->)|
                         (df & valid_df & invalid_df & deduped & _ & _ & _
                          & Hprefix)]].
  - by apply elem_of_nil in Hc.
  - apply list_elem_of_singleton in Hc as ->. eexists. by right.
  - destruct Hprefix as [rest Hrest].
    assert (c ∈ planned_uploads b (calculate_hash bytes) deduped invalid_df)
      as Hin by (rewrite Hrest, elem_of_app; by left).
    apply elem_of_planned_uploads in Hin as [[_ ->]|[_ ->]];
      eexists; [by left|by right].
Qed.

(** C10: whatever the event and the world, every upload that a run
    addresses to a processed key carries the CSV of a dataset that has a
    [user_id] column without repeated values. *)
Theorem processed_artifact_has_distinct_user_ids (ev ctx : json) (w : world)
    (b h body : string) :
  PutObject b (processed_key_of h) body
    ∈ issued w (lambda_handler ev ctx w).2 →
  ∃ df i,
    body = to_csv df ∧
    index_of "user_id" (columns df) = Some i ∧
    NoDup (cell_at i <$> rows df).
Proof.
  intros Hput.
  destruct (run_requests ev ctx w) as [Hnone|(b' & k & Hcalls)].
  { rewrite Hnone in Hput. by apply elem_of_nil in Hput. }
  destruct Hcalls as [Hget|(bytes & puts & _ & Hcalls & Hputs)].
  { rewrite Hget in Hput. by apply list_elem_of_singleton in Hput. }
  rewrite Hcalls, !elem_of_cons in Hput.
  destruct Hput as [?|[?|Hput]]; [done..|].
  destruct Hputs as [->|[(df & msg & _ & _ & ->)|
                         (df & valid_df & invalid_df & deduped & _ & _ & Hdd
                          & Hprefix)]].
  - by apply elem_of_nil in Hput.
  - apply list_elem_of_singleton in Hput. exfalso.
    apply (processed_key_not_error_key h (calculate_hash bytes)).
    congruence.
  - destruct Hprefix as [rest Hrest].
    assert (PutObject b (processed_key_of h) body
              ∈ planned_uploads b' (calculate_hash bytes) deduped invalid_df)
      as Hin by (rewrite Hrest, elem_of_app; by left).
    apply elem_of_planned_uploads in Hin as [[_ Heq]|[_ Heq]].
    + assert (body = to_csv deduped) as -> by congruence.
      assert (∃ i, index_of "user_id" (columns deduped) = Some i) as [i Hi].
      { revert Hdd. unfold drop_duplicates. simpl.
        destruct (index_of "user_id" (columns valid_df)) as [i|] eqn:Hi;
          [|done].
        intros [= <-]. simpl. by exists i. }
      exists deduped, i. split; [done|]. split; [done|].
      by apply (drop_duplicates_user_id_unique valid_df).
    + exfalso.
      apply (processed_key_not_error_key h (calculate_hash bytes)).
      congruence.
Qed.

Lemma run_skipped (ev ctx : json) (w : world) (b k bytes : string) :
  extract_s3_event ev = Ok (JStr b, JStr k) →
  downloads w b k bytes →
  fault w (trace w ++ [GetObject b k])
          (HeadObject b (processed_key_of (calculate_hash bytes))) = None →
  is_Some (objects w !! (b, processed_key_of (calculate_hash bytes))) →
  lambda_handler ev ctx w =
    (Ok tt,
     mkWorld (objects w) (fault w)
       (trace w ++ [GetObject b k;
                    HeadObject b (processed_key_of (calculate_hash bytes))])
       (log w ++ [InfoProcessingFile (JStr k); InfoAlreadyProcessed])
       (clock w) (S (ticks w))).
Proof.
  intros Hex [Hf Ho] Hhead [body Hbody].
  unfold lambda_handler, mbind, M_bind, time_time, logger_emit, lift, raise,
    mret, M_ret.
  rewrite Hex. run_simpl.
  unfold download_file, get_object, mbind, M_bind, lift, mret, M_ret.
  run_simpl. rewrite Hf, Ho. rewrite file_exists_eq. run_simpl.
  rewrite Hhead, Hbody. run_simpl. by rewrite <- !app_assoc.
Qed.

Lemma run_schema_failed (ev ctx : json) (w : world) (b k bytes : string)
    (df : DataFrame) (msg : string) :
  reaches_validation ev w b k bytes df →
  validate_dataframe (normalize_dataframe df) = Raise (ValueError msg) →
  let h := calculate_hash bytes in
  let body := to_csv (normalize_dataframe df) in
  let before := trace w ++ [GetObject b k; HeadObject b (processed_key_of h)] in
  lambda_handler ev ctx w =
    match fault w before (PutObject b (error_key_of h) body) with
    | None =>
        (Ok tt,
         mkWorld (<[(b, error_key_of h) := body]> (objects w)) (fault w)
           (before ++ [PutObject b (error_key_of h) body])
           (log w ++ [InfoProcessingFile (JStr k); ErrorSchemaValidation msg])
           (clock w) (S (ticks w)))
    | Some e =>
        (Raise e,
         mkWorld (objects w) (fault w)
           (before ++ [PutObject b (error_key_of h) body])
           (log w ++ [InfoProcessingFile (JStr k); ErrorSchemaValidation msg])
           (clock w) (S (ticks w)))
    end.
Proof.
  intros Hreach Hval. cbv zeta.
  to_validation Hreach; rewrite Hval; rewrite upload_file_eq; run_simpl;
    rewrite <- !app_assoc; cbn [app];
    destruct (fault w _ _); by world_eq.
Qed.

Lemma run_reported (ev ctx : json) (w : world) (b k bytes : string)
    (df valid_df invalid_df deduped : DataFrame) :
  reaches_validation ev w b k bytes df →
  validate_dataframe (normalize_dataframe df) = Ok (valid_df, invalid_df) →
  drop_duplicates ["user_id"] valid_df = Ok deduped →
  (lambda_handler ev ctx w).1 = Ok tt →
  let h := calculate_hash bytes in
  lambda_handler ev ctx w =
    (Ok tt,
     mkWorld (stored_after b h deduped invalid_df (objects w)) (fault w)
       (trace w ++ [GetObject b k; HeadObject b (processed_key_of h)]
                ++ planned_uploads b h deduped invalid_df)
       (log w ++ [InfoProcessingFile (JStr k);
                  InfoMetrics (JStr k) h (len df) (len deduped)
                    (len invalid_df)
                    (round2 (clock w (S (ticks w)) - clock w (ticks w)))])
       (clock w) (S (S (ticks w)))).
Proof.
  intros Hreach Hval Hdd. cbv zeta.
  unfold planned_uploads, stored_after.
  remember (lambda_handler ev ctx w) as run eqn:Hrun. revert Hrun.
  to_validation Hreach; rewrite Hval, Hdd; run_simpl;
    destruct (decide (0 < len deduped)%nat);
    destruct (decide (0 < len invalid_df)%nat);
    rewrite ?upload_file_eq; run_simpl;
    repeat (match goal with
            | |- context [fault ?w ?t ?c] =>
                destruct (fault w t c); run_simpl
            end; rewrite ?upload_file_eq; run_simpl);
    intros -> Hok; try discriminate Hok; by world_eq.
Qed.

Lemma run_reported_returns (ev ctx : json) (w : world) (b k bytes : string)
    (df valid_df invalid_df deduped : DataFrame) :
  reaches_validation ev w b k bytes df →
  validate_dataframe (normalize_dataframe df) = Ok (valid_df, invalid_df) →
  drop_duplicates ["user_id"] valid_df = Ok deduped →
  (∀ t b' k' body, fault w t (PutObject b' k' body) = None) →
  (lambda_handler ev ctx w).1 = Ok tt.
Proof.
  intros Hreach Hval Hdd Hput.
  to_validation Hreach; rewrite Hval, Hdd; run_simpl;
    destruct (decide (0 < len deduped)%nat);
    destruct (decide (0 < len invalid_df)%nat);
    rewrite ?upload_file_eq; run_simpl; rewrite ?Hput; run_simpl;
    rewrite ?upload_file_eq; run_simpl; rewrite ?Hput; done.
Qed.

(** C6: on a run that passes the gate, validates without schema error and
    returns normally, the requests after the existence check are exactly:
    the upload of the deduplicated valid partition to the processed key
    when that partition is non-empty, then the upload of the invalid
    partition to the error key when that partition is non-empty.  So a
    processed artifact is written if and only if the valid partition is
    non-empty, an error artifact if and only if the invalid partition is
    non-empty, and the stored objects change at those keys only. *)
Theorem partitions_are_uploaded_iff_nonempty (ev ctx : json) (w : world)
    (b k bytes : string) (df valid_df invalid_df deduped : DataFrame) :
  reaches_validation ev w b k bytes df →
  validate_dataframe (normalize_dataframe df) = Ok (valid_df, invalid_df) →
  drop_duplicates ["user_id"] valid_df = Ok deduped →
  (lambda_handler ev ctx w).1 = Ok tt →
  let h := calculate_hash bytes in
  let w' := (lambda_handler ev ctx w).2 in
  issued w w' =
    [GetObject b k; HeadObject b (processed_key_of h)] ++
    (if decide (0 < len valid_df)%nat
     then [PutObject b (processed_key_of h) (to_csv deduped)] else []) ++
    (if decide (0 < len invalid_df)%nat
     then [PutObject b (error_key_of h) (to_csv invalid_df)] else []) ∧
  ((∃ body, PutObject b (processed_key_of h) body ∈ issued w w')
     ↔ (0 < len valid_df)%nat) ∧
  ((∃ body, PutObject b (error_key_of h) body ∈ issued w w')
     ↔ (0 < len invalid_df)%nat) ∧
  objects w' = stored_after b h deduped invalid_df (objects w).
Proof.
  intros Hreach Hval Hdd Hok. cbv zeta.
  rewrite (run_reported _ _ _ _ _ _ _ _ _ _ Hreach Hval Hdd Hok).
  destruct (drop_duplicates_len _ _ _ Hdd) as [_ Hlen].
  issued_simpl. split; [|split; [|split; [|done]]].
  - unfold planned_uploads. by repeat case_decide; try tauto.
  - rewrite <- Hlen. split.
    + intros [body Hin]. rewrite !elem_of_cons in Hin.
      destruct Hin as [?|[?|Hin]]; [done..|].
      apply elem_of_planned_uploads in Hin as [[? _]|[_ Heq]]; [done|].
      exfalso.
      apply (processed_key_not_error_key (calculate_hash bytes)
               (calculate_hash bytes)).
      congruence.
    + intros Hpos. exists (to_csv deduped). rewrite !elem_of_cons.
      right; right. apply elem_of_planned_uploads. by left.
  - split.
    + intros [body Hin]. rewrite !elem_of_cons in Hin.
      destruct Hin as [?|[?|Hin]]; [done..|].
      apply elem_of_planned_uploads in Hin as [[_ Heq]|[? _]]; [|done].
      exfalso.
      apply (processed_key_not_error_key (calculate_hash bytes)
               (calculate_hash bytes)).
      congruence.
    + intros Hpos. exists (to_csv invalid_df). rewrite !elem_of_cons.
      right; right. apply elem_of_planned_uploads. by right.
Qed.

(** C7: when validation raises the schema error on a run that passed the
    gate, the only request after the existence check is the upload of the
    CSV of the whole normalized dataset to the error key; nothing is
    addressed to a processed key, the log gains the "processing" and the
    schema-error records, and when the upload succeeds the handler
    returns and the stored objects differ at the error key only. *)
Theorem schema_error_persists_whole_normalized_file (ev ctx : json)
    (w : world) (b k bytes : string) (df : DataFrame) (msg : string) :
  reaches_validation ev w b k bytes df →
  validate_dataframe (normalize_dataframe df) = Raise (ValueError msg) →
  let h := calculate_hash bytes in
  let body := to_csv (normalize_dataframe df) in
  let r := lambda_handler ev ctx w in
  issued w r.2 =
    [GetObject b k; HeadObject b (processed_key_of h);
     PutObject b (error_key_of h) body] ∧
  (∀ b' h' body', PutObject b' (processed_key_of h') body' ∉ issued w r.2) ∧
  log r.2 = log w ++ [InfoProcessingFile (JStr k); ErrorSchemaValidation msg] ∧
  match fault w (trace w ++ [GetObject b k; HeadObject b (processed_key_of h)])
                (PutObject b (error_key_of h) body) with
  | None => r.1 = Ok tt ∧
            objects r.2 = <[(b, error_key_of h) := body]> (objects w)
  | Some e => r.1 = Raise e ∧ objects r.2 = objects w
  end.
Proof.
  intros Hreach Hval. cbv zeta.
  rewrite (run_schema_failed _ _ _ _ _ _ _ _ Hreach Hval). cbv zeta.
  destruct (fault w _ _); issued_simpl.
  all: split; [done|]; split; [|done].
  all: intros b' h' body'; rewrite !elem_of_cons, elem_of_nil.
  all: intros [?|[?|[Heq|[]]]]; try done.
  all: apply (processed_key_not_error_key h' (calculate_hash bytes)).
  all: congruence.
Qed.

(** C2 (what the code does): on a run whose validation raises the schema
    error, the records added to the log are the "processing" record and
    the schema-error record, and nothing else: no metrics record is
    emitted, with or without zero counts. *)
Theorem schema_error_run_emits_no_metrics (ev ctx : json) (w : world)
    (b k bytes : string) (df : DataFrame) (msg : string) :
  reaches_validation ev w b k bytes df →
  validate_dataframe (normalize_dataframe df) = Raise (ValueError msg) →
  let w' := (lambda_handler ev ctx w).2 in
  log w' = log w ++ [InfoProcessingFile (JStr k); ErrorSchemaValidation msg] ∧
  ∀ rec, rec ∈ drop (length (log w)) (log w') → is_metrics rec = false.
Proof.
  intros Hreach Hval. cbv zeta.
  rewrite (run_schema_failed _ _ _ _ _ _ _ _ Hreach Hval). cbv zeta.
  destruct (fault w _ _); cbn [snd log].
  all: split; [done|]; rewrite drop_app_length.
  all: intros rec; rewrite !elem_of_cons, elem_of_nil.
  all: by intros [->|[->|[]]].
Qed.

(** C1 (as the code has it): when a first run on [bytes] passes the gate,
    validates, keeps at least one valid row and returns normally, a
    second run in the same bucket on an object holding the same bytes
    (under any key), whose download and HEAD request succeed, stops at
    the gate: it sends the download and the existence check and nothing
    else, logs the "processing" and the "already processed" records,
    leaves every stored object as it is, and returns. *)
Theorem second_run_on_same_bytes_is_skipped (ev1 ctx1 ev2 ctx2 : json)
    (w : world) (b k1 k2 bytes : string)
    (df valid_df invalid_df deduped : DataFrame) :
  reaches_validation ev1 w b k1 bytes df →
  validate_dataframe (normalize_dataframe df) = Ok (valid_df, invalid_df) →
  drop_duplicates ["user_id"] valid_df = Ok deduped →
  (0 < len deduped)%nat →
  (lambda_handler ev1 ctx1 w).1 = Ok tt →
  let pk := processed_key_of (calculate_hash bytes) in
  let w1 := (lambda_handler ev1 ctx1 w).2 in
  extract_s3_event ev2 = Ok (JStr b, JStr k2) →
  downloads w1 b k2 bytes →
  fault w1 (trace w1 ++ [GetObject b k2]) (HeadObject b pk) = None →
  lambda_handler ev2 ctx2 w1 =
    (Ok tt,
     mkWorld (objects w1) (fault w1)
       (trace w1 ++ [GetObject b k2; HeadObject b pk])
       (log w1 ++ [InfoProcessingFile (JStr k2); InfoAlreadyProcessed])
       (clock w1) (S (ticks w1))).
Proof.
  intros Hreach Hval Hdd Hpos Hok pk w1 Hex2 Hdl Hhead.
  apply (run_skipped _ _ _ _ _ bytes); [done..|].
  unfold w1. rewrite (run_reported _ _ _ _ _ _ _ _ _ _ Hreach Hval Hdd Hok).
  cbn [snd objects]. unfold stored_after.
  destruct (decide (0 < len deduped)%nat); [|done].
  exists (to_csv deduped).
  case_decide.
  - rewrite lookup_insert_ne, lookup_insert_eq; [done|].
    intros Hkey.
    apply (processed_key_not_error_key (calculate_hash bytes)
             (calculate_hash bytes)).
    congruence.
  - apply lookup_insert_eq.
Qed.
End runs.

(** ** The handler on the sample files *)

Example users_file_is_processed :
  let w := Samples.bucket_with [("in/users.csv", Samples.users_csv)] in
  let r := Samples.run (Samples.s3_event "data" "in/users.csv" []) w in
  r.1 = Ok tt ∧
  log r.2 = [InfoProcessingFile (JStr "in/users.csv");
             InfoMetrics (JStr "in/users.csv")
               "cdc40801bd600e7f589aa555e76b6eb0" 4 2 1 100] ∧
  objects r.2 !! ("data", "processed/users_cleaned_cdc40801bd600e7f589aa555e76b6eb0.csv")
    = Some (Reference.to_csv Samples.users_deduped) ∧
  objects r.2 !! ("data", "error/invalid_rows_cdc40801bd600e7f589aa555e76b6eb0.csv")
    = Some (Reference.to_csv Samples.users_invalid).
Proof. vm_compute. repeat split. Qed.

Lemma users_file_reaches_validation :
  @reaches_validation Reference.collaborators
    (Samples.s3_event "data" "in/users.csv" [])
    (Samples.bucket_with [("in/users.csv", Samples.users_csv);
                          ("in/copy.csv", Samples.users_csv)])
    "data" "in/users.csv" Samples.users_csv Samples.users_parsed.
Proof. repeat split; vm_compute; reflexivity. Defined.

Lemma broken_file_reaches_validation :
  @reaches_validation Reference.collaborators
    (Samples.s3_event "data" "in/broken.csv" [])
    (Samples.bucket_with [("in/broken.csv", Samples.no_user_id_csv)])
    "data" "in/broken.csv" Samples.no_user_id_csv Samples.no_user_id_parsed.
Proof. repeat split; vm_compute; reflexivity. Defined.

Lemma processed_artifact_has_distinct_user_ids_witness :
  ∃ df i,
    Reference.to_csv Samples.users_deduped = Reference.to_csv df ∧
    index_of "user_id" (columns df) = Some i ∧
    NoDup (cell_at i <$> rows df).
Proof.
  apply (@processed_artifact_has_distinct_user_ids Reference.collaborators
           (Samples.s3_event "data" "in/users.csv" []) Samples.context
           (Samples.bucket_with [("in/users.csv", Samples.users_csv)])
           "data" (Reference.calculate_hash Samples.users_csv)
           (Reference.to_csv Samples.users_deduped)).
  vm_compute. repeat constructor.
Defined.

Lemma partitions_are_uploaded_iff_nonempty_witness :
  let w := Samples.bucket_with [("in/users.csv", Samples.users_csv);
                                ("in/copy.csv", Samples.users_csv)] in
  issued w (Samples.run (Samples.s3_event "data" "in/users.csv" []) w).2 =
    [GetObject "data" "in/users.csv";
     HeadObject "data"
       "processed/users_cleaned_cdc40801bd600e7f589aa555e76b6eb0.csv";
     PutObject "data"
       "processed/users_cleaned_cdc40801bd600e7f589aa555e76b6eb0.csv"
       (Reference.to_csv Samples.users_deduped);
     PutObject "data"
       "error/invalid_rows_cdc40801bd600e7f589aa555e76b6eb0.csv"
       (Reference.to_csv Samples.users_invalid)].
Proof.
  pose proof (@partitions_are_uploaded_iff_nonempty Reference.collaborators
                (Samples.s3_event "data" "in/users.csv" []) Samples.context
                _ _ _ _ _ Samples.users_valid Samples.users_invalid
                Samples.users_deduped users_file_reaches_validation)
    as Hthm.
  destruct Hthm as [Hissued _]; [vm_compute; reflexivity..|].
  vm_compute in Hissued |- *. exact Hissued.
Defined.

Lemma schema_error_persists_whole_normalized_file_witness :
  let w := Samples.bucket_with [("in/broken.csv", Samples.no_user_id_csv)] in
  issued w (Samples.run (Samples.s3_event "data" "in/broken.csv" []) w).2 =
    [GetObject "data" "in/broken.csv";
     HeadObject "data"
       "processed/users_cleaned_2b32968e475812d2aed4097365777b91.csv";
     PutObject "data"
       "error/invalid_rows_2b32968e475812d2aed4097365777b91.csv"
       (Reference.to_csv
          (Reference.normalize_dataframe Samples.no_user_id_parsed))].
Proof.
  pose proof (@schema_error_persists_whole_normalized_file
                Reference.collaborators
                (Samples.s3_event "data" "in/broken.csv" []) Samples.context
                _ _ _ _ _ "Missing required columns"
                broken_file_reaches_validation)
    as Hthm.
  destruct Hthm as [Hissued _]; [vm_compute; reflexivity|].
  vm_compute in Hissued |- *. exact Hissued.
Defined.

Lemma schema_error_run_emits_no_metrics_witness :
  let w := Samples.bucket_with [("in/broken.csv", Samples.no_user_id_csv)] in
  let r := Samples.run (Samples.s3_event "data" "in/broken.csv" []) w in
  log r.2 = [InfoProcessingFile (JStr "in/broken.csv");
             ErrorSchemaValidation "Missing required columns"].
Proof.
  pose proof (@schema_error_run_emits_no_metrics Reference.collaborators
                (Samples.s3_event "data" "in/broken.csv" []) Samples.context
                _ _ _ _ _ "Missing required columns"
                broken_file_reaches_validation)
    as Hthm.
  destruct Hthm as [Hlog _]; [vm_compute; reflexivity|].
  exact Hlog.
Defined.

Lemma second_run_on_same_bytes_is_skipped_witness :
  let w := Samples.bucket_with [("in/users.csv", Samples.users_csv);
                                ("in/copy.csv", Samples.users_csv)] in
  let w1 := (Samples.run (Samples.s3_event "data" "in/users.csv" []) w).2 in
  Samples.run (Samples.s3_event "data" "in/copy.csv" []) w1 =
    (Ok tt,
     mkWorld (objects w1) (fault w1)
       (trace w1 ++
          [GetObject "data" "in/copy.csv";
           HeadObject "data"
             (processed_key_of (Reference.calculate_hash Samples.users_csv))])
       (log w1 ++ [InfoProcessingFile (JStr "in/copy.csv"); InfoAlreadyProcessed])
       (clock w1) (S (ticks w1))).
Proof.
  apply (@second_run_on_same_bytes_is_skipped Reference.collaborators
           (Samples.s3_event "data" "in/users.csv" []) Samples.context
           (Samples.s3_event "data" "in/copy.csv" []) Samples.context
           _ "data" "in/users.csv" "in/copy.csv" Samples.users_csv
           Samples.users_parsed Samples.users_valid Samples.users_invalid
           Samples.users_deduped users_file_reaches_validation).
  - vm_compute; reflexivity.
  - vm_compute; reflexivity.
  - vm_compute. lia.
  - vm_compute; reflexivity.
  - vm_compute; reflexivity.
  - split; vm_compute; reflexivity.
  - vm_compute; reflexivity.
Defined.

(** C1 (counterexample): a file none of whose rows is valid.  The first run
    goes through every stage and reports its metrics, but stores no
    processed artifact; the second run on the same bytes under another key
    is not stopped at the gate: it parses, validates and uploads again. *)
Lemma second_run_reprocesses_file_without_valid_rows :
  let w := Samples.bucket_with [("in/a.csv", Samples.all_invalid_csv);
                                ("in/b.csv", Samples.all_invalid_csv)] in
  let first := Samples.run (Samples.s3_event "data" "in/a.csv" []) w in
  let second := Samples.run (Samples.s3_event "data" "in/b.csv" []) first.2 in
  let h := "1f715f678f30a43bfe99ead901c4f6ce" in
  first.1 = Ok tt ∧
  log first.2 = [InfoProcessingFile (JStr "in/a.csv");
                 InfoMetrics (JStr "in/a.csv") h 1 0 1 100] ∧
  second.1 = Ok tt ∧
  issued first.2 second.2 =
    [GetObject "data" "in/b.csv";
     HeadObject "data" ("processed/users_cleaned_" +:+ h +:+ ".csv");
     PutObject "data" ("error/invalid_rows_" +:+ h +:+ ".csv")
       Samples.all_invalid_csv] ∧
  log second.2 = log first.2 ++
                 [InfoProcessingFile (JStr "in/b.csv");
                  InfoMetrics (JStr "in/b.csv") h 1 0 1 100].
Proof. vm_compute. repeat split. Qed.


(** * Further properties of the two modules *)

(** ** The storage adapter: round trips and frames *)

(** X1: an upload that S3 accepts stores the CSV of the dataframe; a
    download of the same location that S3 serves returns exactly that CSV,
    and an existence check that S3 serves answers [True]. *)
Theorem upload_then_download_round_trip `{Collaborators} (b k : string)
    (df : DataFrame) (w : world) :
  fault w (trace w) (PutObject b k (to_csv df)) = None →
  let up := upload_file (JStr b) k df w in
  up.1 = Ok tt ∧
  objects up.2 !! (b, k) = Some (to_csv df) ∧
  (fault up.2 (trace up.2) (GetObject b k) = None →
   (download_file (JStr b) (JStr k) up.2).1 = Ok (to_csv df)) ∧
  (fault up.2 (trace up.2) (HeadObject b k) = None →
   (file_exists (JStr b) k up.2).1 = Ok true).
Proof.
  intros Hput. cbv zeta. rewrite upload_file_eq, Hput. cbn [fst snd].
  assert (objects (store b k (to_csv df) (send (PutObject b k (to_csv df)) w))
            !! (b, k) = Some (to_csv df)) as Hstored
    by apply lookup_insert_eq.
  split; [done|]. split; [done|]. split.
  - intros Hget.
    unfold download_file, get_object, mbind, M_bind, lift, mret, M_ret.
    cbn [param_str]. by rewrite Hget, Hstored.
  - intros Hhead. rewrite file_exists_eq, Hhead, Hstored. done.
Qed.

Lemma upload_then_download_round_trip_witness :
  let up := @upload_file Reference.collaborators (JStr "data") "out.csv"
              Samples.users_df (Samples.bucket_with []) in
  up.1 = Ok tt ∧
  objects up.2 !! ("data", "out.csv") = Some (Reference.to_csv Samples.users_df) ∧
  (fault up.2 (trace up.2) (GetObject "data" "out.csv") = None →
   (download_file (JStr "data") (JStr "out.csv") up.2).1
   = Ok (Reference.to_csv Samples.users_df)) ∧
  (fault up.2 (trace up.2) (HeadObject "data" "out.csv") = None →
   (file_exists (JStr "data") "out.csv" up.2).1 = Ok true).
Proof.
  apply (@upload_then_download_round_trip Reference.collaborators
           "data" "out.csv" Samples.users_df (Samples.bucket_with [])).
  reflexivity.
Defined.

(** X2: uploads overwrite.  After two accepted uploads to one location the
    second content is what is stored, the first is gone, and every other
    location holds what it held before. *)
Theorem upload_file_overwrites_and_frames `{Collaborators} (b k : string)
    (df1 df2 : DataFrame) (w : world) :
  fault w (trace w) (PutObject b k (to_csv df1)) = None →
  fault w (trace w ++ [PutObject b k (to_csv df1)])
          (PutObject b k (to_csv df2)) = None →
  let w2 := (upload_file (JStr b) k df2 (upload_file (JStr b) k df1 w).2).2 in
  objects w2 = <[(b, k) := to_csv df2]> (objects w) ∧
  ∀ loc, loc ≠ (b, k) → objects w2 !! loc = objects w !! loc.
Proof.
  intros Hput1 Hput2. cbv zeta.
  rewrite (upload_file_eq b k df1 w), Hput1. cbn [snd].
  rewrite upload_file_eq. cbn [fault trace store send].
  rewrite Hput2. unfold store, send. cbn [snd objects].
  rewrite insert_insert_eq. split; [done|].
  intros loc Hloc. by rewrite lookup_insert_ne.
Qed.

Lemma upload_file_overwrites_and_frames_witness :
  let w := Samples.bucket_with [("in/users.csv", Samples.users_csv)] in
  let w2 := (@upload_file Reference.collaborators (JStr "data") "out.csv"
               Samples.users_deduped
               (@upload_file Reference.collaborators (JStr "data") "out.csv"
                  Samples.users_valid w).2).2 in
  objects w2
  = <[("data", "out.csv") := Reference.to_csv Samples.users_deduped]> (objects w) ∧
  ∀ loc, loc ≠ ("data", "out.csv") → objects w2 !! loc = objects w !! loc.
Proof.
  apply (@upload_file_overwrites_and_frames Reference.collaborators
           "data" "out.csv" Samples.users_valid Samples.users_deduped);
    reflexivity.
Defined.

(** X3: whatever the bucket value, the key and the state of S3,
    [file_exists] never lets a [ClientError] escape, never changes a
    stored object and never logs. *)
Theorem file_exists_never_raises_client_error (bucket : json) (key : string)
    (w : world) :
  let r := file_exists bucket key w in
  (∀ code, r.1 ≠ Raise (ClientError code)) ∧
  objects r.2 = objects w ∧
  log r.2 = log w.
Proof.
  cbv zeta. destruct bucket as [| | |b| |]; try (by repeat split).
  rewrite file_exists_eq. cbn [fst snd].
  split; [|done]. intros code.
  by destruct (fault w (trace w) (HeadObject b key)) as [[]|].
Qed.

(** [download_file] only reads: with string arguments it sends one GET
    request and leaves the stored objects and the log as they were; when
    no object is stored at the location and S3 answers, it raises the
    [ClientError] of a missing key. *)
Lemma download_file_only_reads (b k : string) (w : world) :
  let r := download_file (JStr b) (JStr k) w in
  trace r.2 = trace w ++ [GetObject b k] ∧
  objects r.2 = objects w ∧
  log r.2 = log w ∧
  (fault w (trace w) (GetObject b k) = None →
   r.1 = match objects w !! (b, k) with
         | Some body => Ok body
         | None => Raise (ClientError "NoSuchKey")
         end).
Proof.
  cbv zeta.
  unfold download_file, get_object, mbind, M_bind, lift, mret, M_ret.
  cbn [param_str].
  destruct (fault w (trace w) (GetObject b k)) as [e|];
    [by repeat split|].
  by destruct (objects w !! (b, k)).
Qed.

(** ** Output keys *)

Lemma string_length_app (s t : string) :
  Stdlib.Strings.String.length (s +:+ t)
  = (Stdlib.Strings.String.length s + Stdlib.Strings.String.length t)%nat.
Proof. induction s as [|c s IH]; simpl; [done|]. by rewrite IH. Qed.

Lemma string_app_inj_r (s1 s2 t : string) : s1 +:+ t = s2 +:+ t → s1 = s2.
Proof.
  revert s2. induction s1 as [|c s1 IH]; intros [|c' s2] Heq.
  - done.
  - apply (f_equal Stdlib.Strings.String.length) in Heq.
    rewrite !string_length_app in Heq. simpl in Heq. exfalso. lia.
  - apply (f_equal Stdlib.Strings.String.length) in Heq.
    rewrite !string_length_app in Heq. simpl in Heq. exfalso. lia.
  - change (String c (s1 +:+ t) = String c' (s2 +:+ t)) in Heq.
    injection Heq as -> Heq. f_equal. by apply IH.
Qed.

(** X4: the two key templates are injective in the fingerprint and never
    meet: files with different fingerprints get different processed keys
    and different error keys, and no processed key is an error key. *)
Theorem output_keys_are_injective_and_disjoint (h h' : string) :
  (processed_key_of h = processed_key_of h' → h = h') ∧
  (error_key_of h = error_key_of h' → h = h') ∧
  processed_key_of h ≠ error_key_of h'.
Proof.
  unfold processed_key_of, error_key_of.
  split; [|split; [|discriminate]].
  - intros Heq. apply String.app_inj in Heq. by apply string_app_inj_r in Heq.
  - intros Heq. apply String.app_inj in Heq. by apply string_app_inj_r in Heq.
Qed.

(** ** Event extraction, characterised *)

Lemma getitem_path3_ok (v : json) (a b c : string) (z : json) :
  (x ← getitem v a; y ← getitem x b; getitem y c) = Ok z ↔
  lookup_path v [a; b; c] = Some z.
Proof.
  unfold mbind, result_bind. simpl.
  destruct v as [| | | |?|d]; try (by split).
  simpl. destruct (assoc a d) as [x|]; simpl; [|by split].
  destruct x as [| | | |?|d']; try (by split).
  simpl. destruct (assoc b d') as [y|]; simpl; [|by split].
  destruct y as [| | | |?|d'']; try (by split).
  simpl. destruct (assoc c d''); split; congruence.
Qed.

Lemma record_location_ok (record bucket key : json) :
  record_location record = Ok (bucket, key) ↔
  lookup_path record ["s3"; "bucket"; "name"] = Some bucket ∧
  lookup_path record ["s3"; "object"; "key"] = Some key.
Proof.
  rewrite <- !getitem_path3_ok.
  unfold record_location, mbind, result_bind.
  destruct (getitem record "s3") as [s3|]; [|by split; [|intros []]].
  destruct (getitem s3 "bucket") as [bkt|]; [|by split; [|intros []]].
  destruct (getitem bkt "name") as [name|]; [|by split; [|intros []]].
  destruct (getitem s3 "object") as [obj|]; [|by split; [|intros []]].
  destruct (getitem obj "key") as [k|]; [|by split; [|intros []]].
  split; [by intros [= -> ->]|by intros [[= ->] [= ->]]].
Qed.

(** X5: [extract_s3_event] returns a pair exactly when ["Records"] is a
    non-empty list whose first element holds both [s3.bucket.name] and
    [s3.object.key], and the pair is made of these two values, of whatever
    type they are.  A ["Records"] value that is a string, a dict or a
    number never yields a pair. *)
Theorem extract_s3_event_succeeds_iff_located (event bucket key : json) :
  extract_s3_event event = Ok (bucket, key) ↔
  ∃ record rest,
    records_of event = Some (record :: rest) ∧
    lookup_path record ["s3"; "bucket"; "name"] = Some bucket ∧
    lookup_path record ["s3"; "object"; "key"] = Some key.
Proof.
  rewrite extract_via_first_record.
  unfold first_record, records_of, mbind, result_bind.
  destruct event as [| | | |?|d];
    try (by split; [|intros (? & ? & ? & _)]).
  simpl. destruct (assoc "Records" d) as [records|];
    [|by split; [|intros (? & ? & ? & _)]].
  destruct records as [| | |s|l|?]; simpl;
    try (by split; [|intros (? & ? & ? & _)]).
  - destruct s; simpl; by split; [|intros (? & ? & ? & _)].
  - destruct l as [|record l]; simpl; [by split; [|intros (? & ? & ? & _)]|].
    rewrite record_location_ok. split.
    + intros Hloc. by exists record, l.
    + by intros (? & ? & [= <- <-] & Hloc).
Qed.

(** ** Deduplication, composed with itself *)

Lemma keep_first_fresh (ps : list nat) (seen : list (list cell))
    (rs : list (list cell)) :
  NoDup (row_key ps <$> rs) →
  (∀ k, k ∈ row_key ps <$> rs → k ∉ seen) →
  keep_first ps seen rs = rs.
Proof.
  revert seen. induction rs as [|r rs IH]; intros seen Hnd Hfresh; [done|].
  simpl. rewrite fmap_cons in Hnd, Hfresh.
  apply NoDup_cons in Hnd as [Hr Hnd].
  rewrite decide_False by (apply Hfresh; by left).
  f_equal. apply IH; [done|].
  intros k Hk. rewrite not_elem_of_cons. split.
  - intros ->. done.
  - apply Hfresh. by right.
Qed.


(** X6: deduplicating twice is deduplicating once: [drop_duplicates], on
    any [subset] of columns, returns its own output unchanged; and the
    output never has more rows than the input. *)
Theorem drop_duplicates_is_idempotent (subset : list string)
    (df out : DataFrame) :
  drop_duplicates subset df = Ok out →
  drop_duplicates subset out = Ok out ∧ (len out ≤ len df)%nat.
Proof.
  unfold drop_duplicates, len.
  destruct (subset_positions subset (columns df)) as [ps|] eqn:Hps; [|done].
  intros [= <-]. cbn [columns rows]. rewrite Hps. split.
  - f_equal. f_equal. apply keep_first_fresh; [apply keep_first_NoDup|].
    intros k _. apply not_elem_of_nil.
  - apply sublist_length, keep_first_sublist.
Qed.

Lemma drop_duplicates_is_idempotent_witness :
  drop_duplicates ["user_id"] Samples.users_deduped = Ok Samples.users_deduped ∧
  (len Samples.users_deduped ≤ len Samples.users_valid)%nat.
Proof.
  apply (drop_duplicates_is_idempotent ["user_id"] Samples.users_valid).
  reflexivity.
Defined.

(** ** Runs that stop on an exception *)

(** The goal about [lambda_handler] stepped up to the parsing of the
    downloaded bytes, for a run whose download succeeds and whose gate is
    open. *)
Ltac to_parsing Hex Hdl Hgate :=
  let Hf := fresh "Hf" in
  let Ho := fresh "Ho" in
  destruct Hdl as [Hf Ho];
  unfold lambda_handler, mbind, M_bind, time_time, logger_emit, lift, raise,
    mret, M_ret;
  rewrite Hex; run_simpl;
  unfold download_file, get_object, mbind, M_bind, lift, mret, M_ret;
  run_simpl; rewrite Hf, Ho;
  rewrite file_exists_eq; run_simpl;
  unfold gate_open in Hgate;
  destruct (fault _ (trace _ ++ [GetObject _ _]) (HeadObject _ _)) as [[]|];
  try discriminate Hgate;
  try rewrite Hgate;
  run_simpl.

Ltac logged_simpl :=
  unfold logged, send, store; cbn [log snd];
  rewrite <- ?app_assoc;
  first [rewrite drop_all | rewrite drop_app_length]; cbn [app].

Section failing_runs.
Context `{Collaborators}.

(** X7: when the download fails (S3 answers the GET with an error, or no
    object is stored at the source key), the handler raises that error
    after the "processing" record and the GET request: no existence check,
    no upload, no other record, no object changed. *)
Theorem download_failure_aborts_run (ev ctx : json) (w : world)
    (b k : string) (e : exn) :
  extract_s3_event ev = Ok (JStr b, JStr k) →
  fault w (trace w) (GetObject b k) = Some e ∨
  (fault w (trace w) (GetObject b k) = None ∧
   objects w !! (b, k) = None ∧ e = ClientError "NoSuchKey") →
  lambda_handler ev ctx w =
    (Raise e,
     mkWorld (objects w) (fault w) (trace w ++ [GetObject b k])
       (log w ++ [InfoProcessingFile (JStr k)]) (clock w) (S (ticks w))).
Proof.
  intros Hex Hget.
  unfold lambda_handler, mbind, M_bind, time_time, logger_emit, lift, raise,
    mret, M_ret.
  rewrite Hex. run_simpl.
  unfold download_file, get_object, mbind, M_bind, lift, mret, M_ret.
  run_simpl.
  destruct Hget as [Hf|(Hf & Ho & ->)]; rewrite Hf; [done|].
  by rewrite Ho.
Qed.

(** X8: when the downloaded bytes cannot be parsed, the exception of
    [pd.read_csv] leaves the handler as it is: the run has sent the GET and
    the HEAD request and logged the "processing" record, and does nothing
    more; no object is stored, so nothing marks the file as seen. *)
Theorem parse_failure_propagates (ev ctx : json) (w : world)
    (b k bytes : string) (e : exn) :
  extract_s3_event ev = Ok (JStr b, JStr k) →
  downloads w b k bytes →
  gate_open w b k (processed_key_of (calculate_hash bytes)) →
  load_into_dataframe bytes = Raise e →
  lambda_handler ev ctx w =
    (Raise e,
     mkWorld (objects w) (fault w)
       (trace w ++ [GetObject b k;
                    HeadObject b (processed_key_of (calculate_hash bytes))])
       (log w ++ [InfoProcessingFile (JStr k)]) (clock w) (S (ticks w))).
Proof.
  intros Hex Hdl Hgate Hload.
  to_parsing Hex Hdl Hgate; rewrite Hload; by world_eq.
Qed.



Lemma run_skipped_logs (ev ctx : json) (w : world) :
  InfoAlreadyProcessed ∈ logged w (lambda_handler ev ctx w).2 →
  ∃ b k bytes,
    extract_s3_event ev = Ok (JStr b, JStr k) ∧
    downloads w b k bytes ∧
    fault w (trace w ++ [GetObject b k])
            (HeadObject b (processed_key_of (calculate_hash bytes))) = None ∧
    is_Some (objects w !! (b, processed_key_of (calculate_hash bytes))).
Proof.
  destruct (extract_s3_event ev) as [[bucket key]|e] eqn:Hex.
  2: { rewrite (handler_without_location _ _ _ _ Hex). logged_simpl.
       by intros ?%elem_of_nil. }
  unfold lambda_handler, mbind, M_bind, time_time, logger_emit, lift, raise,
    mret, M_ret.
  rewrite Hex. run_simpl.
  unfold download_file, get_object, mbind, M_bind, lift, raise, mret, M_ret.
  destruct bucket as [| | |b| |]; run_simpl;
    try (logged_simpl; rewrite list_elem_of_singleton; done).
  destruct key as [| | |k| |]; run_simpl;
    try (logged_simpl; rewrite list_elem_of_singleton; done).
  destruct (fault w (trace w) (GetObject b k)) as [e|] eqn:Hf;
    [logged_simpl; rewrite list_elem_of_singleton; done|].
  destruct (objects w !! (b, k)) as [bytes|] eqn:Hbytes;
    [|logged_simpl; rewrite list_elem_of_singleton; done].
  rewrite file_exists_eq. run_simpl.
  destruct (fault w (trace w ++ [GetObject b k]) (HeadObject b _))
    as [[]|] eqn:Hhead; run_simpl;
    try (logged_simpl; rewrite list_elem_of_singleton; done).
  2: destruct (objects w !! (b, processed_key_of (calculate_hash bytes)))
       eqn:Hpk; run_simpl.
  2: { intros _. by exists b, k, bytes. }
  all: destruct (load_into_dataframe bytes) as [df|] eqn:Hload; run_simpl;
         try (logged_simpl; rewrite list_elem_of_singleton; done).
  all: destruct (validate_dataframe (normalize_dataframe df))
         as [[valid_df invalid_df]|[]] eqn:Hval; run_simpl;
         try (logged_simpl; rewrite list_elem_of_singleton; done).
  all: try (rewrite upload_file_eq; run_simpl;
            match goal with
            | |- context [match fault ?w ?t ?c with _ => _ end] =>
                destruct (fault w t c)
            end;
            logged_simpl; rewrite !elem_of_cons, elem_of_nil;
            by intros [?|[?|[]]]).
  all: destruct (drop_duplicates ["user_id"] valid_df) as [deduped|] eqn:Hdd;
         run_simpl;
         try (logged_simpl; rewrite list_elem_of_singleton; done).
  all: destruct (decide (0 < len deduped)%nat);
         destruct (decide (0 < len invalid_df)%nat);
         rewrite ?upload_file_eq; run_simpl;
         repeat (match goal with
                 | |- context [match fault ?w ?t ?c with _ => _ end] =>
                     destruct (fault w t c); run_simpl
                 end; rewrite ?upload_file_eq; run_simpl).
  all: logged_simpl; rewrite ?elem_of_cons, elem_of_nil;
         by intros [?|[?|[]]] || by intros [?|[]].
Qed.

(** X11: the handler logs "File already processed. Skipping." exactly
    when the download succeeded, S3 answered the HEAD request, and an
    object is stored at the processed key of the downloaded bytes.  A HEAD
    request answered with a [ClientError] never leads to the skip, whether
    or not the artifact is stored. *)
Theorem skip_iff_head_finds_artifact (ev ctx : json) (w : world) :
  InfoAlreadyProcessed ∈ logged w (lambda_handler ev ctx w).2 ↔
  ∃ b k bytes,
    extract_s3_event ev = Ok (JStr b, JStr k) ∧
    downloads w b k bytes ∧
    fault w (trace w ++ [GetObject b k])
            (HeadObject b (processed_key_of (calculate_hash bytes))) = None ∧
    is_Some (objects w !! (b, processed_key_of (calculate_hash bytes))).
Proof.
  split; [apply run_skipped_logs|].
  intros (b & k & bytes & Hex & Hdl & Hhead & Hstored).
  rewrite (run_skipped _ ctx _ _ _ _ Hex Hdl Hhead Hstored).
  logged_simpl. rewrite !elem_of_cons. auto.
Qed.
End failing_runs.

Lemma download_failure_aborts_run_witness :
  Samples.run (Samples.s3_event "data" "in/missing.csv" [])
              (Samples.bucket_with [])
  = (Raise (ClientError "NoSuchKey"),
     mkWorld (objects (Samples.bucket_with [])) Samples.no_faults
       ([] ++ [GetObject "data" "in/missing.csv"])
       ([] ++ [InfoProcessingFile (JStr "in/missing.csv")])
       Samples.seconds 1).
Proof.
  apply (@download_failure_aborts_run Reference.collaborators
           (Samples.s3_event "data" "in/missing.csv" []) Samples.context
           (Samples.bucket_with []) "data" "in/missing.csv").
  - reflexivity.
  - right. repeat split; vm_compute; reflexivity.
Defined.

Lemma parse_failure_propagates_witness :
  let w := Samples.bucket_with [("in/empty.csv", MoreSamples.empty_csv)] in
  Samples.run (Samples.s3_event "data" "in/empty.csv" []) w
  = (Raise (PandasError "EmptyDataError"),
     mkWorld (objects w) (fault w)
       (trace w ++
          [GetObject "data" "in/empty.csv";
           HeadObject "data"
             (processed_key_of (Reference.calculate_hash MoreSamples.empty_csv))])
       (log w ++ [InfoProcessingFile (JStr "in/empty.csv")])
       (clock w) (S (ticks w))).
Proof.
  apply (@parse_failure_propagates Reference.collaborators
           (Samples.s3_event "data" "in/empty.csv" []) Samples.context
           _ "data" "in/empty.csv" MoreSamples.empty_csv).
  - reflexivity.
  - split; vm_compute; reflexivity.
  - vm_compute; reflexivity.
  - vm_compute; reflexivity.
Defined.



(** ** Uploads that fail *)

Section failing_uploads.
Context `{Collaborators}.

(** X12: the two uploads are not atomic.  When the upload of the valid
    partition is accepted and the upload of the invalid partition is
    refused, the handler raises with the processed artifact stored, no
    error artifact written and no metrics logged.  A later run on the same
    bytes whose download and HEAD request succeed is then skipped at the
    gate, so the invalid rows are not written by a retry either. *)
Theorem refused_error_upload_leaves_processed_artifact (ev ctx : json)
    (w : world) (b k bytes : string)
    (df valid_df invalid_df deduped : DataFrame) (e : exn) :
  reaches_validation ev w b k bytes df →
  validate_dataframe (normalize_dataframe df) = Ok (valid_df, invalid_df) →
  drop_duplicates ["user_id"] valid_df = Ok deduped →
  (0 < len deduped)%nat →
  (0 < len invalid_df)%nat →
  let h := calculate_hash bytes in
  let valid_put := PutObject b (processed_key_of h) (to_csv deduped) in
  let invalid_put := PutObject b (error_key_of h) (to_csv invalid_df) in
  let before := trace w ++ [GetObject b k; HeadObject b (processed_key_of h)] in
  fault w before valid_put = None →
  fault w (before ++ [valid_put]) invalid_put = Some e →
  let w1 :=
    mkWorld (<[(b, processed_key_of h) := to_csv deduped]> (objects w))
      (fault w) (before ++ [valid_put; invalid_put])
      (log w ++ [InfoProcessingFile (JStr k)]) (clock w) (S (ticks w)) in
  lambda_handler ev ctx w = (Raise e, w1) ∧
  objects w1 !! (b, error_key_of h) = objects w !! (b, error_key_of h) ∧
  ∀ ev2 ctx2 k2,
    extract_s3_event ev2 = Ok (JStr b, JStr k2) →
    downloads w1 b k2 bytes →
    fault w1 (trace w1 ++ [GetObject b k2]) (HeadObject b (processed_key_of h))
      = None →
    let w2 := (lambda_handler ev2 ctx2 w1).2 in
    (lambda_handler ev2 ctx2 w1).1 = Ok tt ∧
    objects w2 = objects w1 ∧
    issued w1 w2 = [GetObject b k2; HeadObject b (processed_key_of h)].
Proof.
  intros Hreach Hval Hdd Hv Hi h valid_put invalid_put before Hput1 Hput2 w1.
  split; [|split].
  - subst w1 before valid_put invalid_put h.
    rewrite <- app_assoc in Hput2. cbn [app] in Hput2.
    to_validation Hreach; rewrite Hval, Hdd; run_simpl;
      rewrite !decide_True by done;
      rewrite upload_file_eq; run_simpl; rewrite <- ?app_assoc; cbn [app];
      rewrite Hput1; run_simpl;
      rewrite upload_file_eq; run_simpl; rewrite <- ?app_assoc; cbn [app];
      rewrite Hput2; by world_eq.
  - subst w1. cbn [objects]. rewrite lookup_insert_ne; [done|].
    intros Hkey.
    apply (processed_key_not_error_key h h). congruence.
  - intros ev2 ctx2 k2 Hex2 Hdl2 Hhead2. cbv zeta.
    assert (is_Some (objects w1 !! (b, processed_key_of h))) as Hstored.
    { subst w1. cbn [objects]. rewrite lookup_insert_eq. by eexists. }
    rewrite (run_skipped _ ctx2 _ _ _ _ Hex2 Hdl2 Hhead2 Hstored).
    split; [done|]. split; [done|]. by issued_simpl.
Qed.

(** X13: when the upload of the valid partition is refused the handler
    raises at once: the invalid partition is not uploaded although it may
    be non-empty, no metrics are logged and no object changes. *)
Theorem refused_processed_upload_stops_the_run (ev ctx : json) (w : world)
    (b k bytes : string) (df valid_df invalid_df deduped : DataFrame)
    (e : exn) :
  reaches_validation ev w b k bytes df →
  validate_dataframe (normalize_dataframe df) = Ok (valid_df, invalid_df) →
  drop_duplicates ["user_id"] valid_df = Ok deduped →
  (0 < len deduped)%nat →
  let h := calculate_hash bytes in
  let valid_put := PutObject b (processed_key_of h) (to_csv deduped) in
  let before := trace w ++ [GetObject b k; HeadObject b (processed_key_of h)] in
  fault w before valid_put = Some e →
  lambda_handler ev ctx w =
    (Raise e,
     mkWorld (objects w) (fault w) (before ++ [valid_put])
       (log w ++ [InfoProcessingFile (JStr k)]) (clock w) (S (ticks w))).
Proof.
  intros Hreach Hval Hdd Hv h valid_put before Hput.
  subst before valid_put h.
  to_validation Hreach; rewrite Hval, Hdd; run_simpl;
    rewrite !decide_True by done;
    rewrite upload_file_eq; run_simpl; rewrite <- ?app_assoc; cbn [app];
    rewrite Hput; by world_eq.
Qed.
End failing_uploads.

Lemma refused_error_upload_leaves_processed_artifact_witness :
  let w := MoreSamples.refused_error_uploads in
  let h := Reference.calculate_hash Samples.users_csv in
  (@lambda_handler Reference.collaborators
     (Samples.s3_event "data" "in/users.csv" []) Samples.context w).1
  = Raise (ClientError "403").
Proof.
  pose proof (@refused_error_upload_leaves_processed_artifact
                Reference.collaborators
                (Samples.s3_event "data" "in/users.csv" []) Samples.context
                MoreSamples.refused_error_uploads
                "data" "in/users.csv" Samples.users_csv
                Samples.users_parsed Samples.users_valid Samples.users_invalid
                Samples.users_deduped (ClientError "403")) as Hthm.
  destruct Hthm as [Hrun _].
  - repeat split; vm_compute; reflexivity.
  - vm_compute; reflexivity.
  - vm_compute; reflexivity.
  - vm_compute. lia.
  - vm_compute. lia.
  - vm_compute; reflexivity.
  - vm_compute; reflexivity.
  - cbv zeta. by rewrite Hrun.
Defined.

Lemma refused_processed_upload_stops_the_run_witness :
  let w := MoreSamples.refused_uploads in
  issued w (@lambda_handler Reference.collaborators
              (Samples.s3_event "data" "in/users.csv" []) Samples.context w).2
  = [GetObject "data" "in/users.csv";
     HeadObject "data"
       (processed_key_of (Reference.calculate_hash Samples.users_csv));
     PutObject "data"
       (processed_key_of (Reference.calculate_hash Samples.users_csv))
       (Reference.to_csv Samples.users_deduped)].
Proof.
  pose proof (@refused_processed_upload_stops_the_run
                Reference.collaborators
                (Samples.s3_event "data" "in/users.csv" []) Samples.context
                MoreSamples.refused_uploads
                "data" "in/users.csv" Samples.users_csv
                Samples.users_parsed Samples.users_valid Samples.users_invalid
                Samples.users_deduped (ClientError "403")) as Hthm.
  cbv zeta. rewrite Hthm.
  - reflexivity.
  - repeat split; vm_compute; reflexivity.
  - vm_compute; reflexivity.
  - vm_compute; reflexivity.
  - vm_compute. lia.
  - vm_compute; reflexivity.
Defined.

(** ** What a run does to the stored objects *)

Ltac store_eq :=
  unfold store, send; cbn [snd objects];
  repeat rewrite (insert_id (objects _)) by auto;
  reflexivity.

Ltac frame_leaf loc :=
  unfold issued, store, send; cbn [snd objects trace];
  rewrite <- ?app_assoc;
  first [rewrite drop_all | rewrite drop_app_length]; cbn [app];
  repeat match goal with
         | |- context [<[?l := ?v]> ?m !! loc] =>
             destruct (decide (l = loc)) as [<-|];
             [ right; exists v; split;
               [ apply lookup_insert_eq
               | cbn [fst snd]; rewrite !elem_of_cons; auto 10 ]
             | rewrite (lookup_insert_ne m l loc) by done ]
         end;
  try (by left).

Section stored_objects.
Context `{Collaborators}.

Lemma completed_run_stores_outputs (ev ctx : json) (w : world)
    (b k bytes : string) (df : DataFrame) :
  reaches_validation ev w b k bytes df →
  (lambda_handler ev ctx w).1 = Ok tt →
  outputs_stored b bytes (objects (lambda_handler ev ctx w).2).
Proof.
  intros Hreach Hok. unfold outputs_stored.
  pose proof Hreach as (_ & _ & _ & Hload). rewrite Hload.
  destruct (validate_dataframe (normalize_dataframe df))
    as [[valid_df invalid_df]|e] eqn:Hval.
  - destruct (drop_duplicates ["user_id"] valid_df) as [deduped|] eqn:Hdd;
      [|done].
    rewrite (run_reported _ _ _ _ _ _ _ _ _ _ Hreach Hval Hdd Hok).
    cbn [snd objects]. unfold stored_after. split; intros Hpos.
    + rewrite (decide_True (P := (0 < len deduped)%nat)) by done.
      case_decide; [|apply lookup_insert_eq].
      rewrite lookup_insert_ne; [apply lookup_insert_eq|].
      intros Hkey.
      apply (processed_key_not_error_key (calculate_hash bytes)
               (calculate_hash bytes)).
      congruence.
    + rewrite (decide_True (P := (0 < len invalid_df)%nat)) by done.
      apply lookup_insert_eq.
  - destruct e; try done.
    revert Hok.
    rewrite (run_schema_failed _ _ _ _ _ _ _ _ Hreach Hval). cbv zeta.
    destruct (fault w _ _); [done|].
    intros _. apply lookup_insert_eq.
Qed.

Lemma processing_stored_outputs_changes_nothing (ev ctx : json) (w : world)
    (b k bytes : string) :
  extract_s3_event ev = Ok (JStr b, JStr k) →
  objects w !! (b, k) = Some bytes →
  outputs_stored b bytes (objects w) →
  objects (lambda_handler ev ctx w).2 = objects w.
Proof.
  intros Hex Hsrc Hst.
  unfold lambda_handler, mbind, M_bind, time_time, logger_emit, lift, raise,
    mret, M_ret.
  rewrite Hex. run_simpl.
  unfold download_file, get_object, mbind, M_bind, lift, raise, mret, M_ret.
  run_simpl.
  destruct (fault w (trace w) (GetObject b k)); [done|].
  rewrite Hsrc. rewrite file_exists_eq. run_simpl.
  destruct (fault w (trace w ++ [GetObject b k]) (HeadObject b _)) as [[]|];
    run_simpl; try done.
  2: destruct (objects w !! (b, processed_key_of (calculate_hash bytes)));
       run_simpl; try done.
  all: unfold outputs_stored in Hst.
  all: destruct (load_into_dataframe bytes) as [df|]; run_simpl; try done.
  all: destruct (validate_dataframe (normalize_dataframe df))
         as [[valid_df invalid_df]|[]]; run_simpl; try done.
  all: try (rewrite upload_file_eq; run_simpl;
            match goal with
            | |- context [match fault ?w ?t ?c with _ => _ end] =>
                destruct (fault w t c)
            end; by store_eq).
  all: destruct (drop_duplicates ["user_id"] valid_df) as [deduped|];
         run_simpl; try done.
  all: destruct Hst as [Hp He].
  all: destruct (decide (0 < len deduped)%nat);
         destruct (decide (0 < len invalid_df)%nat);
         rewrite ?upload_file_eq; run_simpl;
         repeat (match goal with
                 | |- context [match fault ?w ?t ?c with _ => _ end] =>
                     destruct (fault w t c); run_simpl
                 end; rewrite ?upload_file_eq; run_simpl).
  all: by store_eq.
Qed.

(** X14: writes are idempotent on the store.  After a run that passed the
    gate and returned normally, any further run in the same bucket on an
    object holding the same bytes leaves every stored object as it is,
    whether that run is skipped, processes the file again (no processed
    artifact was written, or the HEAD request met a [ClientError]) or
    fails half-way: what it uploads is already stored under the same key
    with the same content. *)
Theorem rerun_leaves_store_unchanged (ev1 ctx1 ev2 ctx2 : json) (w : world)
    (b k1 k2 bytes : string) (df : DataFrame) :
  reaches_validation ev1 w b k1 bytes df →
  (lambda_handler ev1 ctx1 w).1 = Ok tt →
  let w1 := (lambda_handler ev1 ctx1 w).2 in
  extract_s3_event ev2 = Ok (JStr b, JStr k2) →
  objects w1 !! (b, k2) = Some bytes →
  objects (lambda_handler ev2 ctx2 w1).2 = objects w1.
Proof.
  intros Hreach Hok w1 Hex2 Hsrc.
  apply (processing_stored_outputs_changes_nothing _ _ _ b k2 bytes);
    [done..|].
  by apply completed_run_stores_outputs with k1 df.
Qed.

(** X15: a run never deletes an object and never writes one without an
    upload: at every location the stored object is what it was before the
    run, or it is the body of an upload request that the run issued for
    that location. *)
Theorem run_changes_only_uploaded_objects (ev ctx : json) (w : world)
    (loc : string * string) :
  let w' := (lambda_handler ev ctx w).2 in
  objects w' !! loc = objects w !! loc ∨
  ∃ body, objects w' !! loc = Some body ∧
          PutObject loc.1 loc.2 body ∈ issued w w'.
Proof.
  cbv zeta.
  destruct (extract_s3_event ev) as [[bucket key]|e] eqn:Hex.
  2: { rewrite (handler_without_location _ _ _ _ Hex). by left. }
  unfold lambda_handler, mbind, M_bind, time_time, logger_emit, lift, raise,
    mret, M_ret.
  rewrite Hex. run_simpl.
  unfold download_file, get_object, mbind, M_bind, lift, raise, mret, M_ret.
  destruct bucket as [| | |b| |]; run_simpl; try (by left).
  destruct key as [| | |k| |]; run_simpl; try (by left).
  destruct (fault w (trace w) (GetObject b k)); [by left|].
  destruct (objects w !! (b, k)) as [bytes|]; [|by left].
  rewrite file_exists_eq. run_simpl.
  destruct (fault w (trace w ++ [GetObject b k]) (HeadObject b _)) as [[]|];
    run_simpl; try (by left).
  2: destruct (objects w !! (b, processed_key_of (calculate_hash bytes)));
       run_simpl; try (by left).
  all: destruct (load_into_dataframe bytes) as [df|]; run_simpl;
         try (by left).
  all: destruct (validate_dataframe (normalize_dataframe df))
         as [[valid_df invalid_df]|[]]; run_simpl; try (by left).
  all: try (rewrite upload_file_eq; run_simpl;
            match goal with
            | |- context [match fault ?w ?t ?c with _ => _ end] =>
                destruct (fault w t c)
            end; by frame_leaf loc).
  all: destruct (drop_duplicates ["user_id"] valid_df) as [deduped|];
         run_simpl; try (by left).
  all: destruct (decide (0 < len deduped)%nat);
         destruct (decide (0 < len invalid_df)%nat);
         rewrite ?upload_file_eq; run_simpl;
         repeat (match goal with
                 | |- context [match fault ?w ?t ?c with _ => _ end] =>
                     destruct (fault w t c); run_simpl
                 end; rewrite ?upload_file_eq; run_simpl).
  all: by frame_leaf loc.
Qed.

End stored_objects.

Lemma rerun_leaves_store_unchanged_witness :
  let w := Samples.bucket_with [("in/users.csv", Samples.users_csv);
                                ("in/copy.csv", Samples.users_csv)] in
  let w1 := (Samples.run (Samples.s3_event "data" "in/users.csv" []) w).2 in
  objects (Samples.run (Samples.s3_event "data" "in/copy.csv" []) w1).2
  = objects w1.
Proof.
  apply (@rerun_leaves_store_unchanged Reference.collaborators
           (Samples.s3_event "data" "in/users.csv" []) Samples.context
           (Samples.s3_event "data" "in/copy.csv" []) Samples.context
           _ "data" "in/users.csv" "in/copy.csv" Samples.users_csv
           Samples.users_parsed users_file_reaches_validation).
  - vm_compute; reflexivity.
  - reflexivity.
  - vm_compute; reflexivity.
Defined.


Section repeated_failures.
Context `{Collaborators}.

(** X17: a file that fails the schema check is never marked as seen.
    With an S3 that refuses nothing, a run that ends on the schema error
    stores the error artifact only, and the same event delivered again,
    with the source object still in place, goes through download,
    existence check, parsing, normalization, validation and the same
    upload once more. *)
Theorem schema_failed_file_is_processed_again (ev ctx ctx2 : json) (w : world)
    (b k bytes : string) (df : DataFrame) (msg : string) :
  (∀ t c, fault w t c = None) →
  reaches_validation ev w b k bytes df →
  validate_dataframe (normalize_dataframe df) = Raise (ValueError msg) →
  let h := calculate_hash bytes in
  let body := to_csv (normalize_dataframe df) in
  let w1 := (lambda_handler ev ctx w).2 in
  objects w1 !! (b, k) = Some bytes →
  let second := lambda_handler ev ctx2 w1 in
  second.1 = Ok tt ∧
  issued w1 second.2 =
    [GetObject b k; HeadObject b (processed_key_of h);
     PutObject b (error_key_of h) body] ∧
  logged w1 second.2 =
    [InfoProcessingFile (JStr k); ErrorSchemaValidation msg] ∧
  objects second.2 = objects w1.
Proof.
  intros Hnofault Hreach Hval h body w1 Hsrc second.
  subst h body.
  set (h := calculate_hash bytes) in *.
  set (body := to_csv (normalize_dataframe df)) in *.
  assert (lambda_handler ev ctx w =
          (Ok tt,
           mkWorld (<[(b, error_key_of h) := body]> (objects w)) (fault w)
             ((trace w ++ [GetObject b k; HeadObject b (processed_key_of h)])
                ++ [PutObject b (error_key_of h) body])
             (log w ++ [InfoProcessingFile (JStr k); ErrorSchemaValidation msg])
             (clock w) (S (ticks w)))) as Hfirst.
  { rewrite (run_schema_failed _ _ _ _ _ _ _ _ Hreach Hval). cbv zeta.
    by rewrite Hnofault. }
  assert (reaches_validation ev w1 b k bytes df) as Hreach1.
  { destruct Hreach as (Hex & _ & Hgate & Hload).
    split; [done|]. split; [|split; [|done]].
    - split; [|done]. subst w1. rewrite Hfirst. apply Hnofault.
    - unfold gate_open in *. rewrite Hnofault in Hgate.
      subst w1. rewrite Hfirst. cbn [snd fault objects trace].
      rewrite Hnofault. rewrite lookup_insert_ne; [done|].
      intros Hkey. apply (processed_key_not_error_key h h).
      unfold h in *. congruence. }
  subst second.
  rewrite (run_schema_failed _ _ _ _ _ _ _ _ Hreach1 Hval). cbv zeta.
  assert (∀ t c, fault w1 t c = None) as Hnofault1.
  { intros t c. subst w1. rewrite Hfirst. apply Hnofault. }
  rewrite Hnofault1. cbn [fst snd objects].
  split; [done|]. split; [by issued_simpl|]. split; [by logged_simpl|].
  apply insert_id. subst w1. rewrite Hfirst. apply lookup_insert_eq.
Qed.
End repeated_failures.

Lemma schema_failed_file_is_processed_again_witness :
  let w := Samples.bucket_with [("in/broken.csv", Samples.no_user_id_csv)] in
  let w1 := (Samples.run (Samples.s3_event "data" "in/broken.csv" []) w).2 in
  (Samples.run (Samples.s3_event "data" "in/broken.csv" []) w1).1 = Ok tt.
Proof.
  pose proof (@schema_failed_file_is_processed_again Reference.collaborators
                (Samples.s3_event "data" "in/broken.csv" []) Samples.context
                Samples.context
                (Samples.bucket_with [("in/broken.csv", Samples.no_user_id_csv)])
                _ _ _ _ "Missing required columns"
                (λ _ _, eq_refl) broken_file_reaches_validation) as Hthm.
  destruct Hthm as [Hok _]; [vm_compute; reflexivity..|].
  exact Hok.
Defined.
